(** * pearsons.py: a polling monitor for the Pearson correlation of two price series

    A shallow embedding of [src/pearsons.py] and the properties of its
    fetcher, its correlation engine and its monitoring loop.

    The script talks to the outside world in six ways: it imports modules,
    reads lines from the terminal, prints lines, asks the market-data provider
    for a price history, reads the wall clock and sleeps.  Each of them is an
    [event]; a run of the program is a function of an environment [Env] that
    answers the events, and the events performed so far are kept in the
    [trace] of the machine state.  Python exceptions are an explicit result
    ([Raise]); [try]/[except] is a combinator that selects a handler by the
    class of the exception, as Python does. *)

From Stdlib Require Import ZArith String Ascii List Lia Floats.SpecFloat.
From Stdlib Require Import Decimal DecimalString.
From stdpp Require Import base gmap strings list.

Open Scope string_scope.
Open Scope list_scope.
Open Scope Z_scope.

(** ** Python exceptions *)

(** The classes of [Exception] the script can meet.  [ImportError] stands for
    itself and its subclass [ModuleNotFoundError]; [OtherError] is any other
    subclass of [Exception] (a network error of the provider, say). *)
Inductive exc_class : Type :=
  | ImportError
  | KeyError
  | TypeError
  | EOFError
  | OtherError.

(** [KeyboardInterrupt] derives from [BaseException], not from [Exception]:
    an [except Exception] clause does not catch it. *)
Inductive exn : Type :=
  | KeyboardInterrupt
  | Exc (cls : exc_class) (msg : string).

Definition is_Exception (e : exn) : bool :=
  match e with
  | KeyboardInterrupt => false
  | Exc _ _ => true
  end.

(** [str(e)] *)
Definition str_exn (e : exn) : string :=
  match e with
  | KeyboardInterrupt => ""
  | Exc _ msg => msg
  end.

(** ** Floating-point values

    Prices and coefficients are IEEE-754 binary64 numbers, modelled by the
    Standard Library's [spec_float] at precision 53 and maximal exponent
    1024. *)
Module Float64.

Definition float : Type := spec_float.

Definition prec : Z := 53.
Definition emax : Z := 1024.

Definition nan : float := S754_nan.
Definition inf : float := S754_infinity false.

Definition of_Z (z : Z) : float := binary_normalize prec emax z 0 false.

Definition add : float -> float -> float := SFadd prec emax.
Definition sub : float -> float -> float := SFsub prec emax.
Definition mul : float -> float -> float := SFmul prec emax.
Definition div : float -> float -> float := SFdiv prec emax.
Definition sqrt : float -> float := SFsqrt prec emax.

Definition is_nan (x : float) : bool :=
  match x with
  | S754_nan => true
  | _ => false
  end.

(** [numpy.clip(x, lo, hi)]: [minimum (maximum x lo) hi]; both propagate
    NaN. *)
Definition clip (x lo hi : float) : float :=
  if is_nan x then nan
  else if SFltb x lo then lo
  else if SFltb hi x then hi
  else x.

End Float64.

Import Float64.

(** ** Series and frames *)

(** A pandas [Series] of closing prices: the index (a timestamp) and the
    value of each row, in index order. *)
Definition Series : Type := list (Z * float).

(** The [DataFrame] the provider returns: its columns by label. *)
Definition DataFrame : Type := gmap string Series.

(** ** Events, environment and machine state *)

Inductive event : Type :=
  | EvImport (module_name : string)
  | EvInput (prompt : string)
  | EvPrint (text : string)
  | EvHistory (symbol period interval : string)
  | EvNow
  | EvSleep (seconds : Z).

(** What [yf.Ticker(symbol).history(period=..., interval=...)] does: it
    returns a frame or raises. *)
Inductive provider_reply : Type :=
  | Reply (data : DataFrame)
  | Fail (cls : exc_class) (msg : string).

(** The environment answers the events.  Answers may depend on the number of
    events performed before (the index [nat]), so that an environment is a
    whole history of the outside world.  [sigint n] tells whether the
    operator's Ctrl-C arrives while the process is blocked in its [n]-th
    event; it is looked at where the process waits: reading a line, the
    provider call, and [time.sleep]. *)
Record Env : Type := {
  installed : string -> bool;
  stdin : nat -> option string;
  history : nat -> string -> string -> string -> provider_reply;
  clock : nat -> Z;
  sigint : nat -> bool
}.

(** The machine state: the events so far, and the two local variables of
    [continuous_monitor] that live across loop iterations.  The clock counts
    microseconds of local time. *)
Record State : Type := {
  trace : list event;
  last_update : option Z;
  last_data_count : option nat
}.

Definition tick (s : State) : nat := length (trace s).

Definition log (ev : event) (s : State) : State :=
  {| trace := trace s ++ [ev];
     last_update := last_update s;
     last_data_count := last_data_count s |}.

Definition initial_state : State :=
  {| trace := []; last_update := None; last_data_count := None |}.

(** The lines written to standard output, in order. *)
Definition stdout (tr : list event) : list string :=
  omap (fun ev => match ev with EvPrint t => Some t | _ => None end) tr.

(** The requests sent to the provider, in order. *)
Definition requests (tr : list event) : list (string * string * string) :=
  omap (fun ev => match ev with
                  | EvHistory s p i => Some (s, p, i)
                  | _ => None
                  end) tr.

(** ** A state and exception monad *)

Inductive outcome (A : Type) : Type :=
  | Ret (a : A)
  | Raise (e : exn)
  | Spin.
Arguments Ret {A} a.
Arguments Raise {A} e.
Arguments Spin {A}.

(** [Spin] is the outcome of a loop that is still running when its fuel is
    spent; no handler catches it. *)
Definition M (A : Type) : Type := State -> outcome A * State.

#[global] Instance M_ret : MRet M := fun A a s => (Ret a, s).

Definition raise {A} (e : exn) : M A := fun s => (Raise e, s).

#[global] Instance M_bind : MBind M := fun A B k m s =>
  match m s with
  | (Ret a, s') => k a s'
  | (Raise e, s') => (Raise e, s')
  | (Spin, s') => (Spin, s')
  end.

(** [try: body except ...: handler]: [handler e] is [None] when no clause
    matches the class of [e], which then propagates.  An exception raised
    by the handler itself propagates too: the clauses of a [try] do not
    guard one another. *)
Definition try_except {A} (body : M A) (handler : exn -> option (M A)) : M A :=
  fun s =>
    match body s with
    | (Raise e, s') =>
        match handler e with
        | Some h => h s'
        | None => (Raise e, s')
        end
    | r => r
    end.

Definition spin {A} : M A := fun s => (Spin, s).

(** Reading and assigning the local variables of [continuous_monitor]. *)
Definition get_state : M State := fun s => (Ret s, s).

Definition set_last_update (v : option Z) : M unit :=
  fun s => (Ret tt, {| trace := trace s;
                       last_update := v;
                       last_data_count := last_data_count s |}).

Definition set_last_data_count (v : option nat) : M unit :=
  fun s => (Ret tt, {| trace := trace s;
                       last_update := last_update s;
                       last_data_count := v |}).

(** ** The effects *)

Section Effects.

Variable E : Env.

(** Performs [ev]; Ctrl-C arriving while the process waits in it raises
    [KeyboardInterrupt] there. *)
Definition blocking {A} (ev : event) (answer : nat -> outcome A) : M A :=
  fun s =>
    let n := tick s in
    if sigint E n then (Raise KeyboardInterrupt, log ev s)
    else (answer n, log ev s).

(** [import name] *)
Definition import (name : string) : M unit :=
  fun s =>
    if installed E name then (Ret tt, log (EvImport name) s)
    else (Raise (Exc ImportError ("No module named '" +:+ name +:+ "'")),
          log (EvImport name) s).

(** [print(text)] *)
Definition print (text : string) : M unit :=
  fun s => (Ret tt, log (EvPrint text) s).

(** [input(prompt)] *)
Definition input (prompt : string) : M string :=
  blocking (EvInput prompt)
    (fun n => match stdin E n with
              | Some line => Ret line
              | None => Raise (Exc EOFError "EOF when reading a line")
              end).

(** [datetime.now()] *)
Definition datetime_now : M Z :=
  fun s => (Ret (clock E (tick s)), log EvNow s).

(** [time.sleep(seconds)] *)
Definition time_sleep (seconds : Z) : M unit :=
  blocking (EvSleep seconds) (fun _ => Ret tt).

(** [yf.Ticker(symbol).history(period=period, interval=interval)] *)
Definition stock_history (symbol period interval : string) : M DataFrame :=
  blocking (EvHistory symbol period interval)
    (fun n => match history E n symbol period interval with
              | Reply data => Ret data
              | Fail cls msg => Raise (Exc cls msg)
              end).

(** ** [get_stock_data] (lines 8-28) *)

Definition timeframe_mapping (period : string) : gmap string string :=
  list_to_map
    [("1m", "7d");
     ("5m", "60d");
     ("15m", "60d");
     ("30m", "60d");
     ("1h", "730d");
     ("4h", "730d");
     ("1d", period);
     ("1wk", period);
     ("1mo", period)].

(** [timeframe_mapping.get(timeframe, '1y')] *)
Definition selected_period (timeframe period : string) : string :=
  default "1y" (timeframe_mapping period !! timeframe).

(** [data['Close']]; a frame without that column raises
    [KeyError('Close')], whose [str] is the quoted label. *)
Definition getitem_Close (data : DataFrame) : M Series :=
  match data !! "Close" with
  | Some column => mret column
  | None => raise (Exc KeyError "'Close'")
  end.

Definition get_stock_data (symbol timeframe period : string) : M Series :=
  data ← stock_history symbol (selected_period timeframe period) timeframe;
  getitem_Close data.

End Effects.

(** ** Text: what the script prints *)

Definition nl : string := String "010" EmptyString.

Definition digits (n : Z) : string := NilZero.string_of_uint (N.to_uint (Z.to_N n)).

Definition two_digits (n : Z) : string :=
  if n <? 10 then "0" +:+ digits n else digits n.

(** [t.strftime('%H:%M:%S')] for an instant counted in microseconds. *)
Definition strftime_HMS (t : Z) : string :=
  let secs := t / 1000000 in
  two_digits ((secs / 3600) mod 24) +:+ ":" +:+
  two_digits ((secs / 60) mod 60) +:+ ":" +:+
  two_digits (secs mod 60).

(** The nearest integer to [num / den], ties to the even one ([0 < den]). *)
Definition round_half_even (num den : Z) : Z :=
  let q := num / den in
  let r := num mod den in
  match 2 * r ?= den with
  | Lt => q
  | Gt => q + 1
  | Eq => if Z.even q then q else q + 1
  end.

Definition pad4 (n : Z) : string :=
  (if n <? 1000 then "0" else "") +:+
  (if n <? 100 then "0" else "") +:+
  (if n <? 10 then "0" else "") +:+ digits n.

(** [f"{x:.4f}"]: the decimal with four places nearest the exact value of
    the float, ties to even. *)
Definition format_4f (x : float) : string :=
  match x with
  | S754_nan => "nan"
  | S754_infinity sign => if sign then "-inf" else "inf"
  | S754_zero sign => if sign then "-0.0000" else "0.0000"
  | S754_finite sign m e =>
      let scaled :=
        match e with
        | Zneg p => round_half_even (Zpos m * 10000) (2 ^ Zpos p)
        | _ => Zpos m * 2 ^ e * 10000
        end in
      (if sign then "-" else "") +:+
      digits (scaled / 10000) +:+ "." +:+ pad4 (scaled mod 10000)
  end.

(** [x in l] for a list of strings. *)
Definition in_list (x : string) (l : list string) : bool :=
  existsb (String.eqb x) l.

(** ** The correlation engine: pandas and numpy *)

(** [pd.concat([a, b], axis=1, join='inner')]: the rows whose index is in
    both series, in the order of the first.  The index of a price series is
    strictly increasing, so each timestamp is met once. *)
Definition index_lookup (t : Z) (s : Series) : option float :=
  snd <$> List.find (fun row => fst row =? t) s.

Definition concat_inner (a b : Series) : list (Z * (float * float)) :=
  omap (fun row => y ← index_lookup (fst row) b; Some (fst row, (snd row, y))) a.

(** The joined frame with its two column labels
    ([combined_data.columns = [symbol1, symbol2]]). *)
Record Combined : Type := {
  columns : string * string;
  rows : list (Z * (float * float))
}.

(** [df[label]] is a [Series] when one column bears the label and a
    [DataFrame] of all the columns that bear it when several do. *)
Inductive selection : Type :=
  | OneColumn (values : list float)
  | SubFrame (left right : list float).

Definition getitem (df : Combined) (label : string) : M selection :=
  let left := (fun row => fst (snd row)) <$> rows df in
  let right := (fun row => snd (snd row)) <$> rows df in
  match String.eqb label (fst (columns df)), String.eqb label (snd (columns df)) with
  | true, true => mret (SubFrame left right)
  | true, false => mret (OneColumn left)
  | false, true => mret (OneColumn right)
  | false, false => raise (Exc KeyError ("'" +:+ label +:+ "'"))
  end.

(** Sums run from left to right, starting at zero.  numpy adds long rows
    in blocks, so that on long series its last bits may differ from the
    ones computed here; nothing below depends on the order. *)
Definition fsum (l : list float) : float := foldl add (of_Z 0) l.

Definition dot (u v : list float) : float := fsum (zip_with mul u v).

(** [numpy.corrcoef(a, b)[0, 1]]: the covariance matrix of the two centred
    rows, scaled by the reciprocal of [n - 1] (of [0.0] when that is not
    positive), divided by the two standard deviations and clipped to
    [[-1, 1]]. *)
Definition corrcoef (a b : list float) : float :=
  let n := Z.of_nat (length a) in
  let avg_a := div (fsum a) (of_Z n) in
  let avg_b := div (fsum b) (of_Z n) in
  let xa := (fun v => sub v avg_a) <$> a in
  let xb := (fun v => sub v avg_b) <$> b in
  let fact := of_Z (Z.max 0 (n - 1)) in
  let scale := div (of_Z 1) fact in
  let c00 := mul (dot xa xa) scale in
  let c01 := mul (dot xa xb) scale in
  let c11 := mul (dot xb xb) scale in
  let stddev0 := sqrt c00 in
  let stddev1 := sqrt c11 in
  clip (div (div c01 stddev0) stddev1) (of_Z (-1)) (of_Z 1).

(** [pandas.core.nanops.nancorr(a, b, method='pearson', min_periods=None)]:
    rows with a NaN are dropped, and fewer than one row left gives NaN. *)
Definition nancorr (a b : list float) : float :=
  let valid := List.filter (fun p => negb (is_nan (fst p)) && negb (is_nan (snd p)))
                           (zip a b) in
  if (length valid <? 1)%nat then nan else corrcoef (fst <$> valid) (snd <$> valid).

(** [Series.corr(other, method='pearson')] on two columns of one frame. *)
Definition Series_corr (this other : list float) : float :=
  if (length (zip this other) =? 0)%nat then nan else nancorr this other.

(** [this.corr(other, method='pearson')].  [DataFrame.corr] has [method]
    as its first parameter, so that on a frame the call gives [method]
    twice and raises [TypeError].  A [Series] with a frame as argument does
    not arise from two selections on one frame; pandas refuses to align the
    two. *)
Definition corr (this other : selection) : M float :=
  match this, other with
  | OneColumn a, OneColumn b => mret (Series_corr a b)
  | OneColumn _, SubFrame _ _ => raise (Exc OtherError "Must specify axis=0 or 1")
  | SubFrame _ _, _ =>
      raise (Exc TypeError "DataFrame.corr() got multiple values for argument 'method'")
  end.

(** What [calculate_correlation] returns: a float, for which
    [isinstance(correlation, float)] holds, or the text of an error, for
    which it does not. *)
Inductive pyvalue : Type :=
  | PyFloat (f : float)
  | PyStr (text : string).

(** ** Terminal input: [str.strip], [str.upper], [str.lower]

    The terminal is taken to deliver ASCII text. *)

Definition is_space (c : ascii) : bool :=
  let n := nat_of_ascii c in
  ((9 <=? n) && (n <=? 13) || (28 <=? n) && (n <=? 32))%nat.

Fixpoint lstrip (s : string) : string :=
  match s with
  | String c rest => if is_space c then lstrip rest else s
  | EmptyString => EmptyString
  end.

Fixpoint rstrip (s : string) : string :=
  match s with
  | String c rest =>
      match rstrip rest with
      | EmptyString => if is_space c then EmptyString else String c EmptyString
      | rest' => String c rest'
      end
  | EmptyString => EmptyString
  end.

Definition strip (s : string) : string := rstrip (lstrip s).

Definition upper_ascii (c : ascii) : ascii :=
  let n := nat_of_ascii c in
  if ((97 <=? n) && (n <=? 122))%nat then ascii_of_nat (n - 32) else c.

Definition lower_ascii (c : ascii) : ascii :=
  let n := nat_of_ascii c in
  if ((65 <=? n) && (n <=? 90))%nat then ascii_of_nat (n + 32) else c.

Fixpoint map_string (f : ascii -> ascii) (s : string) : string :=
  match s with
  | String c rest => String (f c) (map_string f rest)
  | EmptyString => EmptyString
  end.

Definition upper : string -> string := map_string upper_ascii.
Definition lower : string -> string := map_string lower_ascii.

(** [s or fallback]: the empty string is false. *)
Definition or_else (s fallback : string) : string :=
  match s with
  | EmptyString => fallback
  | _ => s
  end.

(** ** The program *)

Section Program.

Variable E : Env.

(** *** [calculate_correlation] (lines 30-45) *)

Definition calculate_correlation (symbol1 symbol2 timeframe period : string)
  : M pyvalue :=
  try_except
    (stock1_data ← get_stock_data E symbol1 timeframe period;
     stock2_data ← get_stock_data E symbol2 timeframe period;
     let combined_data :=
       {| columns := (symbol1, symbol2);
          rows := concat_inner stock1_data stock2_data |} in
     this ← getitem combined_data symbol1;
     other ← getitem combined_data symbol2;
     correlation ← corr this other;
     mret (PyFloat correlation))
    (fun e =>
       if is_Exception e then Some (mret (PyStr ("Error: " +:+ str_exn e)))
       else None).

(** *** [continuous_monitor] (lines 47-94) *)

(** The condition of lines 64-66.  [total_seconds()] is the difference in
    microseconds divided by [10**6], a correctly rounded quotient, so that
    it reaches 60 exactly when the difference reaches sixty million. *)
Definition should_report (last_update : option Z) (last_data_count : option nat)
                         (current_time : Z) (current_count : nat) : bool :=
  match last_update with
  | None => true
  | Some t => 60 * 1000000 <=? current_time - t
  end
  &&
  match last_data_count with
  | None => true
  | Some c => (c <? current_count)%nat
  end.

(** Lines 71-78; [sys.stdout.flush()] changes nothing that is seen here. *)
Definition print_report (symbol1 symbol2 timeframe period : string)
                        (current_time : Z) (correlation : float) : M unit :=
  print (nl +:+ "! New data update at " +:+ strftime_HMS current_time);;
  print ("Pearson's correlation between " +:+ symbol1 +:+ " and " +:+ symbol2
         +:+ ": " +:+ format_4f correlation);;
  print ("Timeframe: " +:+ timeframe);;
  if in_list timeframe ["1d"; "1wk"; "1mo"]
  then print ("Period: " +:+ period)
  else print "Period: Automatically set based on timeframe".

(** Lines 68-84: the report attempt. *)
Definition report_attempt (symbol1 symbol2 timeframe period : string)
                          (current_time : Z) (current_count : nat) : M unit :=
  correlation ← calculate_correlation symbol1 symbol2 timeframe period;
  match correlation with
  | PyFloat f =>
      print_report symbol1 symbol2 timeframe period current_time f;;
      set_last_update (Some current_time);;
      set_last_data_count (Some current_count)
  | PyStr text =>
      print (nl +:+ "Error at " +:+ strftime_HMS current_time +:+ ": " +:+ text)
  end.

(** Lines 89-94: the two [except] clauses of the loop.  Their value is
    [true] to go on and [false] after [break]. *)
Definition monitor_handlers (e : exn) : option (M bool) :=
  match e with
  | KeyboardInterrupt =>
      Some (print (nl +:+ "Monitoring stopped by user");;
            mret false)
  | Exc _ msg =>
      Some (now ← datetime_now E;
            print (nl +:+ "Unexpected error at " +:+ strftime_HMS now
                   +:+ ": " +:+ msg);;
            time_sleep E 5;;
            mret true)
  end.

(** Lines 64-87: the gate, the report attempt and the regular sleep. *)
Definition report_and_sleep (symbol1 symbol2 timeframe period : string)
                            (current_time : Z) (current_count : nat) : M bool :=
  s ← get_state;
  (if should_report (last_update s) (last_data_count s)
                    current_time current_count
   then report_attempt symbol1 symbol2 timeframe period
                       current_time current_count
   else mret tt);;
  time_sleep E 5;;
  mret true.

(** Lines 55-94, one turn of the [while True]. *)
Definition loop_body (symbol1 symbol2 timeframe period : string) : M bool :=
  try_except
    (stock1_data ← get_stock_data E symbol1 timeframe period;
     let current_count := length stock1_data in
     current_time ← datetime_now E;
     report_and_sleep symbol1 symbol2 timeframe period
                      current_time current_count)
    monitor_handlers.

Fixpoint monitor_loop (fuel : nat) (symbol1 symbol2 timeframe period : string)
  : M unit :=
  match fuel with
  | O => spin
  | S fuel' =>
      continue ← loop_body symbol1 symbol2 timeframe period;
      if continue : bool
      then monitor_loop fuel' symbol1 symbol2 timeframe period
      else mret tt
  end.

Definition continuous_monitor (fuel : nat)
                              (symbol1 symbol2 timeframe period : string)
  : M unit :=
  set_last_update None;;
  set_last_data_count None;;
  monitor_loop fuel symbol1 symbol2 timeframe period.

(** *** [main] (lines 96-127) *)

Definition valid_timeframes : list string :=
  ["1m"; "5m"; "15m"; "30m"; "1h"; "4h"; "1d"; "1wk"; "1mo"].

Definition valid_periods : list string :=
  ["1d"; "5d"; "1mo"; "3mo"; "6mo"; "1y"; "2y"; "5y"; "10y"; "ytd"; "max"].

Definition main (fuel : nat) : M unit :=
  print "Stock Correlation Calculator - Continuous Monitoring";;
  print "Enter stock symbols in uppercase (e.g., AAPL for Apple)";;
  line1 ← input E "Enter first stock symbol: ";
  let symbol1 := upper (strip line1) in
  line2 ← input E "Enter second stock symbol: ";
  let symbol2 := upper (strip line2) in
  print (nl +:+ "Available timeframes: 1m, 5m, 15m, 30m, 1h, 4h, 1d, 1wk, 1mo");;
  line3 ← input E "Enter timeframe (default is 1d): ";
  timeframe ←
    (let timeframe := or_else (lower (strip line3)) "1d" in
     if negb (in_list timeframe valid_timeframes)
     then print "Invalid timeframe. Using default '1d'";; mret "1d"
     else mret timeframe);
  period ←
    (if in_list timeframe ["1d"; "1wk"; "1mo"]
     then
       print (nl +:+ "Available periods: 1d, 5d, 1mo, 3mo, 6mo, 1y, 2y, 5y, 10y, ytd, max");;
       line4 ← input E "Enter period (default is 1y): ";
       let period := or_else (lower (strip line4)) "1y" in
       if negb (in_list period valid_periods)
       then print "Invalid period. Using default '1y'";; mret "1y"
       else mret period
     else mret "1y");
  print (nl +:+ "Starting continuous monitoring... (Press Ctrl+C to stop)");;
  print "Updates will occur every minute when new data is available";;
  continuous_monitor fuel symbol1 symbol2 timeframe period.

(** *** The script, run as [__main__]

    Lines 1-6 are the imports at the top of the module; lines 129-135 are
    the guarded entry point. *)
Definition script (fuel : nat) : M unit :=
  import E "yfinance";;
  import E "pandas";;
  import E "numpy";;
  import E "datetime";;
  import E "time";;
  import E "sys";;
  try_except
    (import E "yfinance";;
     main fuel)
    (fun e =>
       match e with
       | Exc ImportError _ =>
           Some (print "Error: Please install yfinance first";;
                 print "Run: pip install yfinance")
       | _ => None
       end).

Definition run (fuel : nat) : outcome unit * State := script fuel initial_state.

End Program.

(** The process ends with status 0 when the script runs to its end, and
    with a traceback and another status when an exception leaves it. *)
Definition exits_with_success (r : outcome unit) : bool :=
  match r with
  | Ret _ => true
  | _ => false
  end.

(** ** Observations on a run *)

(** The result of the freshness fetch that opens a loop iteration. *)
Definition first_fetch (E : Env) (symbol1 timeframe period : string) (s : State)
  : outcome Series :=
  fst (get_stock_data E symbol1 timeframe period s).

(** A report attempt shows in the trace: the iteration asked the provider
    for more than its freshness fetch. *)
Definition report_attempted (before after : State) : bool :=
  (length (requests (trace before)) + 1 <?
   length (requests (trace after)))%nat.

(** The state at the [k]-th boundary of the loop that starts in [s]; [None]
    when the loop has ended before. *)
Fixpoint boundary (E : Env) (symbol1 symbol2 timeframe period : string)
                  (k : nat) (s : State) : option State :=
  match k with
  | O => Some s
  | S k' =>
      match loop_body E symbol1 symbol2 timeframe period s with
      | (Ret true, s') => boundary E symbol1 symbol2 timeframe period k' s'
      | _ => None
      end
  end.

(** The state once both histories of a report attempt have been asked
    for. *)
Definition fetched_twice (symbol1 symbol2 timeframe period : string) (s : State)
  : State :=
  log (EvHistory symbol2 (selected_period timeframe period) timeframe)
      (log (EvHistory symbol1 (selected_period timeframe period) timeframe) s).

(** A computation that only performs events: it extends the trace and
    leaves the two variables of the monitor as they are. *)
Definition only_logs {A} (m : M A) : Prop :=
  forall s, exists evs,
    snd (m s) = {| trace := trace s ++ evs;
                   last_update := last_update s;
                   last_data_count := last_data_count s |}.

(** The state in which [continuous_monitor] enters its loop. *)
Definition monitor_start (s : State) : State :=
  snd ((set_last_update None;; set_last_data_count None) s).

(** [last_update] and [last_data_count] are unset together or set
    together. *)
Definition paired (s : State) : Prop :=
  (last_update s = None /\ last_data_count s = None) \/
  (exists t n, last_update s = Some t /\ last_data_count s = Some n).

(** Building series and frames from integer prices. *)
Definition prices (l : list (Z * Z)) : Series :=
  (fun row => (fst row, of_Z (snd row))) <$> l.

Definition close_frame (s : Series) : DataFrame := {[ "Close" := s ]}.

(** ** Sample worlds

    [world reply ctrl_c]: every module is installed, the operator types
    nothing, the provider answers [reply symbol] whatever the window, the
    clock advances one second per event, and Ctrl-C arrives where [ctrl_c]
    says. *)
Definition world (reply : string -> provider_reply) (ctrl_c : nat -> bool) : Env :=
  {| installed := fun _ => true;
     stdin := fun _ => Some "";
     history := fun _ symbol _ _ => reply symbol;
     clock := fun n => Z.of_nat n * 1000000;
     sigint := ctrl_c |}.

Definition never : nat -> bool := fun _ => false.

(** Two instruments with three daily closes on the same days. *)
Definition steady_world : Env :=
  world (fun symbol =>
           if String.eqb symbol "AAPL"
           then Reply (close_frame (prices [(1, 1); (2, 2); (3, 3)]))
           else Reply (close_frame (prices [(1, 2); (2, 4); (3, 7)])))
        never.

(** Two instruments that never trade on the same day. *)
Definition disjoint_world : Env :=
  world (fun symbol =>
           if String.eqb symbol "AAPL"
           then Reply (close_frame (prices [(1, 10); (2, 11)]))
           else Reply (close_frame (prices [(3, 20); (4, 21)])))
        never.

(** The provider knows no instrument: every frame is empty, with its
    columns. *)
Definition empty_world : Env :=
  world (fun _ => Reply (close_frame [])) never.

(** The operator presses Ctrl-C during the very next event. *)
Definition interrupted_world : Env :=
  world (fun _ => Reply (close_frame (prices [(1, 1); (2, 2); (3, 3)])))
        (fun n => (n =? 0)%nat).

(** The provider is unreachable, and the operator, who has typed the two
    symbols and accepted the defaults, presses Ctrl-C during the twenty-first
    event of the run: the sleep that follows the first failed fetch. *)
Definition outage_world : Env :=
  {| installed := fun _ => true;
     stdin := fun n => Some (if (n =? 9)%nat then "aapl"
                             else if (n =? 10)%nat then "msft" else "");
     history := fun _ _ _ _ => Fail OtherError "network down";
     clock := fun n => Z.of_nat n * 1000000;
     sigint := fun n => (n =? 20)%nat |}.

(** The same operator with a provider that answers, pressing Ctrl-C during
    the regular sleep of the first iteration (the twenty-sixth event). *)
Definition patient_world : Env :=
  {| installed := fun _ => true;
     stdin := fun n => Some (if (n =? 9)%nat then "aapl"
                             else if (n =? 10)%nat then "msft" else "");
     history := history steady_world;
     clock := fun n => Z.of_nat n * 1000000;
     sigint := fun n => (n =? 25)%nat |}.

(** A machine on which yfinance is not installed. *)
Definition bare_world : Env :=
  {| installed := fun name => negb (String.eqb name "yfinance");
     stdin := fun _ => Some "";
     history := fun _ _ _ _ => Fail OtherError "unreachable";
     clock := fun n => Z.of_nat n * 1000000;
     sigint := never |}.

(** A state in the middle of a run: the last report was made at second 100
    with 2 rows. *)
Definition reported_state : State :=
  {| trace := []; last_update := Some 100000000; last_data_count := Some 2%nat |}.

(** A computation all of whose new events satisfy [P], whose value
    satisfies [Q] when it returns and whose exception satisfies [R] when it
    raises. *)
Definition conforms {A} (P : event -> Prop) (Q : A -> Prop) (R : exn -> Prop)
                    (m : M A) : Prop :=
  forall s, exists evs,
    trace (snd (m s)) = trace s ++ evs /\
    Forall P evs /\
    match fst (m s) with
    | Ret a => Q a
    | Raise e => R e
    | Spin => True
    end.

(** What [continuous_monitor] may do: ask the provider about one of its two
    symbols, with the window of its timeframe; read the clock; sleep five
    seconds; print any line but the install guidance of line 134. *)
Definition monitor_event (symbol1 symbol2 timeframe period : string)
                         (ev : event) : Prop :=
  match ev with
  | EvHistory symbol window interval =>
      (symbol = symbol1 \/ symbol = symbol2) /\
      window = selected_period timeframe period /\
      interval = timeframe
  | EvPrint text => text <> "Error: Please install yfinance first"
  | EvSleep seconds => seconds = 5
  | EvNow => True
  | EvImport _ => False
  | EvInput _ => False
  end.

(** What the whole script may do. *)
Definition script_event (ev : event) : Prop :=
  match ev with
  | EvHistory symbol window interval =>
      upper symbol = symbol /\
      In interval valid_timeframes /\
      In window (valid_periods ++ ["7d"; "60d"; "730d"])
  | EvPrint text => text <> "Error: Please install yfinance first"
  | EvSleep seconds => seconds = 5
  | _ => True
  end.

(** The exceptions that may leave the script. *)
Definition script_exn (e : exn) : Prop :=
  e = KeyboardInterrupt \/
  e = Exc EOFError "EOF when reading a line" \/
  exists name, e = Exc ImportError ("No module named '" +:+ name +:+ "'").

(** A state whose last report was made a minute before the origin of the
    clock, with 2 rows. *)
Definition stale_state : State :=
  {| trace := []; last_update := Some (-60000000); last_data_count := Some 2%nat |}.

(** The line that ends the monitoring. *)
Definition stop_line : event := EvPrint (nl +:+ "Monitoring stopped by user").

(** The provider never answers and the operator never interrupts. *)
Definition dead_provider_world : Env :=
  world (fun _ => Fail OtherError "network down") never.

(** The three timeframes for which the caller's period is used. *)
Definition daily_or_coarser : list string := ["1d"; "1wk"; "1mo"].

(** * Properties *)

Arguments strftime_HMS : simpl never.
Arguments format_4f : simpl never.
Arguments selected_period : simpl never.

(** ** The fetcher *)

Section Fetcher.

Variable E : Env.

(** What one call of [get_stock_data] does, whatever the world answers. *)
Lemma get_stock_data_spec symbol timeframe period s :
  get_stock_data E symbol timeframe period s =
  (if sigint E (tick s) then Raise KeyboardInterrupt
   else match history E (tick s) symbol (selected_period timeframe period) timeframe with
        | Reply data =>
            match data !! "Close" with
            | Some column => Ret column
            | None => Raise (Exc KeyError "'Close'")
            end
        | Fail cls msg => Raise (Exc cls msg)
        end,
   log (EvHistory symbol (selected_period timeframe period) timeframe) s).
Proof.
  unfold get_stock_data, mbind, M_bind, stock_history, blocking.
  destruct (sigint E (tick s)); [reflexivity |].
  destruct (history E (tick s) symbol _ timeframe) as [data | cls msg];
    [| reflexivity].
  unfold getitem_Close. destruct (data !! "Close"); reflexivity.
Qed.

Lemma get_stock_data_state symbol timeframe period s :
  snd (get_stock_data E symbol timeframe period s) =
  log (EvHistory symbol (selected_period timeframe period) timeframe) s.
Proof. rewrite get_stock_data_spec. reflexivity. Qed.

Lemma get_stock_data_never_spins symbol timeframe period s :
  fst (get_stock_data E symbol timeframe period s) <> Spin.
Proof.
  rewrite get_stock_data_spec. simpl.
  repeat case_match; discriminate.
Qed.

(** C2: the window sent to the provider is 7d for 1m, 60d for 5m, 15m and
    30m, 730d for 1h and 4h, whatever window the caller gives, and the
    caller's window for 1d, 1wk and 1mo; a 5-minute fetch with window 10y
    asks for 60d. *)
Theorem window_override symbol period s :
  let sent timeframe :=
    requests (trace (snd (get_stock_data E symbol timeframe period s))) in
  sent "1m" = requests (trace s) ++ [(symbol, "7d", "1m")] /\
  sent "5m" = requests (trace s) ++ [(symbol, "60d", "5m")] /\
  sent "15m" = requests (trace s) ++ [(symbol, "60d", "15m")] /\
  sent "30m" = requests (trace s) ++ [(symbol, "60d", "30m")] /\
  sent "1h" = requests (trace s) ++ [(symbol, "730d", "1h")] /\
  sent "4h" = requests (trace s) ++ [(symbol, "730d", "4h")] /\
  sent "1d" = requests (trace s) ++ [(symbol, period, "1d")] /\
  sent "1wk" = requests (trace s) ++ [(symbol, period, "1wk")] /\
  sent "1mo" = requests (trace s) ++ [(symbol, period, "1mo")] /\
  requests (trace (snd (get_stock_data E symbol "5m" "10y" s))) =
    requests (trace s) ++ [(symbol, "60d", "5m")].
Proof.
  assert (Hsent : forall timeframe window,
             requests (trace (snd (get_stock_data E symbol timeframe window s))) =
             requests (trace s) ++
               [(symbol, selected_period timeframe window, timeframe)]).
  { intros timeframe window. rewrite get_stock_data_state. simpl.
    unfold requests. rewrite omap_app. reflexivity. }
  simpl. rewrite !Hsent. repeat split.
Qed.

End Fetcher.

Section FetcherFailures.

Variable E : Env.

(** C7, as the code has it: [get_stock_data] hands on what the provider
    call raises and raises [KeyError] for a frame without a Close column;
    it does not look at the length of the column, so the Close column of
    an empty frame is returned like any other. *)
Theorem fetch_propagates_provider_errors symbol timeframe period s :
  sigint E (tick s) = false ->
  let window := selected_period timeframe period in
  let result := fst (get_stock_data E symbol timeframe period s) in
  (forall cls msg,
      history E (tick s) symbol window timeframe = Fail cls msg ->
      result = Raise (Exc cls msg)) /\
  (forall data,
      history E (tick s) symbol window timeframe = Reply data ->
      data !! "Close" = None ->
      result = Raise (Exc KeyError "'Close'")) /\
  (forall data column,
      history E (tick s) symbol window timeframe = Reply data ->
      data !! "Close" = Some column ->
      result = Ret column).
Proof.
  intros Hquiet window result. subst window result.
  rewrite get_stock_data_spec, Hquiet. simpl.
  repeat split.
  - intros cls msg ->. reflexivity.
  - intros data -> ->. reflexivity.
  - intros data column -> ->. reflexivity.
Qed.

End FetcherFailures.

Lemma fetch_propagates_provider_errors_witness :
  sigint empty_world (tick initial_state) = false /\
  fst (get_stock_data empty_world "ZZZZINVALID" "1d" "1y" initial_state) = Ret [].
Proof.
  split; [reflexivity |].
  apply (fetch_propagates_provider_errors empty_world "ZZZZINVALID" "1d" "1y"
           initial_state eq_refl)
    with (data := close_frame []); reflexivity.
Defined.

(** C7 fails as stated: the provider answers an unknown instrument with an
    empty frame, and [get_stock_data] returns its empty Close column as a
    result, raising nothing. *)
Lemma empty_result_is_passed_on :
  history empty_world 0 "ZZZZINVALID" "1y" "1d" = Reply (close_frame []) /\
  fst (get_stock_data empty_world "ZZZZINVALID" "1d" "1y" initial_state) = Ret [].
Proof. split; reflexivity. Qed.

(** ** The correlation engine *)

(** With one row the covariance matrix is scaled by [1 / 0.0], an infinity:
    every entry becomes an infinity or NaN, and their quotient is NaN. *)
Lemma scaled_by_infinity_is_nan z0 z1 z2 :
  clip (div (div (mul z1 inf) (sqrt (mul z0 inf))) (sqrt (mul z2 inf)))
       (of_Z (-1)) (of_Z 1) = nan.
Proof.
  destruct z0 as [[]|[]| |[] ? ?], z1 as [[]|[]| |[] ? ?]; reflexivity.
Qed.

Lemma corrcoef_single x y : corrcoef [x] [y] = nan.
Proof.
  unfold corrcoef.
  change (Z.of_nat (length [x])) with 1.
  change (of_Z (Z.max 0 (1 - 1))) with (S754_zero false).
  change (div (of_Z 1) (S754_zero false)) with inf.
  cbv zeta. apply scaled_by_infinity_is_nan.
Qed.

(** Fewer than two aligned rows: [Series.corr] is NaN. *)
Lemma Series_corr_short (this other : list float) :
  (length (zip this other) < 2)%nat -> Series_corr this other = nan.
Proof.
  intros Hshort. unfold Series_corr, nancorr.
  destruct (zip this other) as [| [x y] [| row rest]] eqn:Hzip.
  - reflexivity.
  - simpl. destruct (is_nan x); simpl; [reflexivity |].
    destruct (is_nan y); simpl; [reflexivity |].
    apply corrcoef_single.
  - simpl in Hshort. lia.
Qed.

Lemma zip_columns (l : list (Z * (float * float))) :
  zip ((fun row => fst (snd row)) <$> l) ((fun row => snd (snd row)) <$> l) =
  snd <$> l.
Proof.
  induction l as [| [t [x y]] l IH]; simpl; [reflexivity |].
  f_equal. exact IH.
Qed.

(** [numpy.corrcoef] clips: a coefficient is NaN or lies in [[-1, 1]]. *)
Lemma compare_cont_flip m1 m2 :
  Pos.compare_cont Eq m2 m1 = CompOpp (Pos.compare_cont Eq m1 m2).
Proof. rewrite Pos.compare_cont_antisym. reflexivity. Qed.

Lemma SFcompare_antisym x y : SFcompare y x = CompOpp <$> SFcompare x y.
Proof.
  destruct x as [[] | [] | | [] m1 e1], y as [[] | [] | | [] m2 e2];
    try reflexivity; simpl; f_equal;
    rewrite (Z.compare_antisym e1 e2), (compare_cont_flip m1 m2);
    destruct (e1 ?= e2); simpl; try reflexivity;
    destruct (Pos.compare_cont Eq m1 m2); reflexivity.
Qed.

Lemma not_below_is_above x lo :
  is_nan x = false -> is_nan lo = false -> SFltb x lo = false -> SFleb lo x = true.
Proof.
  unfold SFltb, SFleb. rewrite (SFcompare_antisym x lo).
  intros Hx Hlo.
  destruct (SFcompare x lo) as [[] |] eqn:Hcmp; simpl;
    try reflexivity; try discriminate.
  destruct x, lo; simpl in *; discriminate.
Qed.

Lemma not_above_is_below x hi :
  is_nan x = false -> is_nan hi = false -> SFltb hi x = false -> SFleb x hi = true.
Proof.
  unfold SFltb, SFleb. rewrite (SFcompare_antisym hi x).
  intros Hx Hhi.
  destruct (SFcompare hi x) as [[] |] eqn:Hcmp; simpl;
    try reflexivity; try discriminate.
  destruct x, hi; simpl in *; discriminate.
Qed.

Lemma clip_range x :
  let r := clip x (of_Z (-1)) (of_Z 1) in
  r = nan \/ (SFleb (of_Z (-1)) r = true /\ SFleb r (of_Z 1) = true).
Proof.
  cbv zeta. unfold clip.
  destruct (is_nan x) eqn:Hnan; [left; reflexivity | right].
  destruct (SFltb x (of_Z (-1))) eqn:Hlo; [split; reflexivity |].
  destruct (SFltb (of_Z 1) x) eqn:Hhi; [split; reflexivity |].
  split.
  - apply not_below_is_above; [exact Hnan | reflexivity | exact Hlo].
  - apply not_above_is_below; [exact Hnan | reflexivity | exact Hhi].
Qed.

Lemma Series_corr_range this other :
  let r := Series_corr this other in
  r = nan \/ (SFleb (of_Z (-1)) r = true /\ SFleb r (of_Z 1) = true).
Proof.
  cbv zeta. unfold Series_corr, nancorr.
  destruct (length (zip this other) =? 0)%nat; [left; reflexivity |].
  destruct (length (List.filter _ (zip this other)) <? 1)%nat;
    [left; reflexivity |].
  unfold corrcoef. apply clip_range.
Qed.

Section Engine.

Variable E : Env.

Lemma getitem_left (l1 l2 : string) rs s :
  l1 <> l2 ->
  getitem {| columns := (l1, l2); rows := rs |} l1 s =
    (Ret (OneColumn ((fun row => fst (snd row)) <$> rs)), s).
Proof.
  intros Hne. unfold getitem. simpl. rewrite String.eqb_refl.
  assert (H12 : String.eqb l1 l2 = false) by (apply String.eqb_neq; exact Hne).
  rewrite H12. reflexivity.
Qed.

Lemma getitem_right (l1 l2 : string) rs s :
  l1 <> l2 ->
  getitem {| columns := (l1, l2); rows := rs |} l2 s =
    (Ret (OneColumn ((fun row => snd (snd row)) <$> rs)), s).
Proof.
  intros Hne. unfold getitem. simpl. rewrite String.eqb_refl.
  assert (H21 : String.eqb l2 l1 = false)
    by (apply String.eqb_neq; intros Heq; apply Hne; symmetry; exact Heq).
  rewrite H21. reflexivity.
Qed.

Lemma getitem_same (l : string) rs s :
  getitem {| columns := (l, l); rows := rs |} l s =
    (Ret (SubFrame ((fun row => fst (snd row)) <$> rs)
                   ((fun row => snd (snd row)) <$> rs)), s).
Proof. unfold getitem. simpl. rewrite !String.eqb_refl. reflexivity. Qed.

(** Two different instruments whose fetches succeed: the result is the
    float that [Series.corr] computes on the joined columns. *)
Lemma calculate_correlation_distinct symbol1 symbol2 timeframe period s a b :
  symbol1 <> symbol2 ->
  first_fetch E symbol1 timeframe period s = Ret a ->
  first_fetch E symbol2 timeframe period
    (log (EvHistory symbol1 (selected_period timeframe period) timeframe) s) = Ret b ->
  calculate_correlation E symbol1 symbol2 timeframe period s =
  (Ret (PyFloat (Series_corr ((fun row => fst (snd row)) <$> concat_inner a b)
                             ((fun row => snd (snd row)) <$> concat_inner a b))),
   fetched_twice symbol1 symbol2 timeframe period s).
Proof.
  unfold first_fetch. intros Hne Ha Hb.
  unfold calculate_correlation, try_except, mbind, M_bind.
  destruct (get_stock_data E symbol1 timeframe period s) as [r1 s1] eqn:H1.
  pose proof (get_stock_data_state E symbol1 timeframe period s) as Hs1.
  rewrite H1 in Hs1. simpl in Ha, Hs1. subst r1 s1.
  destruct (get_stock_data E symbol2 timeframe period _) as [r2 s2] eqn:H2.
  pose proof (get_stock_data_state E symbol2 timeframe period
                (log (EvHistory symbol1 (selected_period timeframe period) timeframe) s))
    as Hs2.
  rewrite H2 in Hs2. simpl in Hb, Hs2. subst r2 s2.
  rewrite getitem_left, getitem_right by exact Hne.
  reflexivity.
Qed.

(** X16: one instrument against itself, in any world where its two
    fetches succeed: both selections are frames, the call of [corr] is
    ill-formed, and the result is the text of the [TypeError], never a
    float. *)
Lemma calculate_correlation_same symbol timeframe period s a b :
  first_fetch E symbol timeframe period s = Ret a ->
  first_fetch E symbol timeframe period
    (log (EvHistory symbol (selected_period timeframe period) timeframe) s) = Ret b ->
  calculate_correlation E symbol symbol timeframe period s =
  (Ret (PyStr "Error: DataFrame.corr() got multiple values for argument 'method'"),
   fetched_twice symbol symbol timeframe period s).
Proof.
  unfold first_fetch. intros Ha Hb.
  unfold calculate_correlation, try_except, mbind, M_bind.
  destruct (get_stock_data E symbol timeframe period s) as [r1 s1] eqn:H1.
  pose proof (get_stock_data_state E symbol timeframe period s) as Hs1.
  rewrite H1 in Hs1. simpl in Ha, Hs1. subst r1 s1.
  destruct (get_stock_data E symbol timeframe period
              (log (EvHistory symbol (selected_period timeframe period) timeframe) s))
    as [r2 s2] eqn:H2.
  pose proof (get_stock_data_state E symbol timeframe period
                (log (EvHistory symbol (selected_period timeframe period) timeframe) s))
    as Hs2.
  rewrite H2 in Hs2. simpl in Hb, Hs2. subst r2 s2.
  rewrite !getitem_same. reflexivity.
Qed.

End Engine.

Section EngineBoundary.

Variable E : Env.

(** The body of the [try] never spins, and whatever it raises is handed
    to the handler with the state the events left. *)
Lemma calculate_correlation_cases symbol1 symbol2 timeframe period s :
  match fst (calculate_correlation E symbol1 symbol2 timeframe period s) with
  | Ret _ => True
  | Raise e => e = KeyboardInterrupt
  | Spin => False
  end.
Proof.
  unfold calculate_correlation, try_except, mbind, M_bind.
  rewrite get_stock_data_spec.
  destruct (sigint E (tick s)); [reflexivity |].
  destruct (history E (tick s) symbol1 _ timeframe) as [data1 | cls1 msg1];
    [| exact I].
  destruct (data1 !! "Close") as [a |]; [| exact I].
  rewrite get_stock_data_spec.
  destruct (sigint E _); [reflexivity |].
  destruct (history E _ symbol2 _ timeframe) as [data2 | cls2 msg2];
    [| exact I].
  destruct (data2 !! "Close") as [b |]; [| exact I].
  unfold getitem, corr, raise. simpl.
  destruct (String.eqb symbol1 symbol1), (String.eqb symbol1 symbol2),
    (String.eqb symbol2 symbol1), (String.eqb symbol2 symbol2);
    simpl; exact I.
Qed.

(** An interrupt leaves [calculate_correlation] only if Ctrl-C arrived
    during one of its two provider calls. *)
Lemma calculate_correlation_quiet symbol1 symbol2 timeframe period s :
  sigint E (tick s) = false ->
  sigint E (S (tick s)) = false ->
  exists v, fst (calculate_correlation E symbol1 symbol2 timeframe period s) = Ret v.
Proof.
  intros Hq1 Hq2.
  unfold calculate_correlation, try_except, mbind, M_bind.
  rewrite get_stock_data_spec, Hq1.
  destruct (history E (tick s) symbol1 _ timeframe) as [data1 | cls1 msg1];
    [| eexists; reflexivity].
  destruct (data1 !! "Close") as [a |]; [| eexists; reflexivity].
  rewrite get_stock_data_spec.
  replace (tick (log _ s)) with (S (tick s))
    by (unfold tick, log; simpl; rewrite length_app; simpl; lia).
  rewrite Hq2.
  destruct (history E _ symbol2 _ timeframe) as [data2 | cls2 msg2];
    [| eexists; reflexivity].
  destruct (data2 !! "Close") as [b |]; [| eexists; reflexivity].
  unfold getitem, corr, raise. simpl.
  destruct (String.eqb symbol1 symbol1), (String.eqb symbol1 symbol2),
    (String.eqb symbol2 symbol1), (String.eqb symbol2 symbol2);
    simpl; eexists; reflexivity.
Qed.

(** X15: whatever float [calculate_correlation] returns is NaN or lies in
    [[-1, 1]]. *)
Lemma coefficient_is_nan_or_in_range symbol1 symbol2 timeframe period s f :
  fst (calculate_correlation E symbol1 symbol2 timeframe period s) = Ret (PyFloat f) ->
  f = nan \/ (SFleb (of_Z (-1)) f = true /\ SFleb f (of_Z 1) = true).
Proof.
  unfold calculate_correlation, try_except, mbind, M_bind.
  rewrite get_stock_data_spec.
  destruct (sigint E (tick s)); [discriminate |].
  destruct (history E (tick s) symbol1 _ timeframe) as [data1 | cls1 msg1];
    [| discriminate].
  destruct (data1 !! "Close") as [a |]; [| discriminate].
  rewrite get_stock_data_spec.
  destruct (sigint E _); [discriminate |].
  destruct (history E _ symbol2 _ timeframe) as [data2 | cls2 msg2];
    [| discriminate].
  destruct (data2 !! "Close") as [b |]; [| discriminate].
  unfold getitem, corr, raise. simpl.
  destruct (String.eqb symbol1 symbol1), (String.eqb symbol1 symbol2),
    (String.eqb symbol2 symbol1), (String.eqb symbol2 symbol2);
    simpl; try discriminate;
    intros [= <-]; apply Series_corr_range.
Qed.

(** C5, as the code has it: no exception of class [Exception] leaves
    [calculate_correlation]; a failure of either fetch comes back as the
    text [Error: ] followed by its description.  What can leave it is the
    operator's [KeyboardInterrupt], which [except Exception] does not
    catch: when no Ctrl-C arrives during its two provider calls, it
    returns. *)
Theorem failures_become_error_values symbol1 symbol2 timeframe period s :
  let result := fst (calculate_correlation E symbol1 symbol2 timeframe period s) in
  let s1 := log (EvHistory symbol1 (selected_period timeframe period) timeframe) s in
  (forall cls msg, result <> Raise (Exc cls msg)) /\
  result <> Spin /\
  (forall cls msg,
      first_fetch E symbol1 timeframe period s = Raise (Exc cls msg) ->
      result = Ret (PyStr ("Error: " +:+ msg))) /\
  (forall a cls msg,
      first_fetch E symbol1 timeframe period s = Ret a ->
      first_fetch E symbol2 timeframe period s1 = Raise (Exc cls msg) ->
      result = Ret (PyStr ("Error: " +:+ msg))) /\
  (sigint E (tick s) = false ->
   sigint E (S (tick s)) = false ->
   exists v, result = Ret v).
Proof.
  intros result s1.
  pose proof (calculate_correlation_cases symbol1 symbol2 timeframe period s)
    as Hcases.
  fold result in Hcases.
  split; [| split; [| split; [| split]]];
    [| | | | apply calculate_correlation_quiet].
  - intros cls msg Heq. rewrite Heq in Hcases. discriminate.
  - intros Heq. rewrite Heq in Hcases. exact Hcases.
  - subst result. unfold first_fetch. intros cls msg Hfail.
    unfold calculate_correlation, try_except, mbind, M_bind.
    destruct (get_stock_data E symbol1 timeframe period s) as [r1 s1'].
    simpl in Hfail. subst r1. reflexivity.
  - subst result s1. unfold first_fetch. intros a cls msg Ha Hfail.
    unfold calculate_correlation, try_except, mbind, M_bind.
    destruct (get_stock_data E symbol1 timeframe period s) as [r1 s1'] eqn:H1.
    pose proof (get_stock_data_state E symbol1 timeframe period s) as Hs1.
    rewrite H1 in Hs1. simpl in Ha, Hs1. subst r1 s1'.
    destruct (get_stock_data E symbol2 timeframe period
                (log (EvHistory symbol1 (selected_period timeframe period) timeframe) s))
      as [r2 s2].
    simpl in Hfail. subst r2. reflexivity.
Qed.

End EngineBoundary.

(** C5 fails as stated: Ctrl-C during the first provider call leaves
    [calculate_correlation] as a [KeyboardInterrupt] raised to its
    caller. *)
Lemma interrupt_leaves_calculate_correlation :
  fst (calculate_correlation interrupted_world "AAPL" "MSFT" "1d" "1y" initial_state)
  = Raise KeyboardInterrupt.
Proof. reflexivity. Qed.

Section UndefinedCoefficient.

Variable E : Env.

(** What a report attempt does once [calculate_correlation] has returned
    the float [f] in state [s']: four lines are printed and the two
    variables are assigned. *)
Lemma report_attempt_float symbol1 symbol2 timeframe period now n s s' f :
  calculate_correlation E symbol1 symbol2 timeframe period s = (Ret (PyFloat f), s') ->
  report_attempt E symbol1 symbol2 timeframe period now n s =
  (Ret tt,
   {| trace := trace s' ++
        [EvPrint (nl +:+ "! New data update at " +:+ strftime_HMS now);
         EvPrint ("Pearson's correlation between " +:+ symbol1 +:+ " and "
                  +:+ symbol2 +:+ ": " +:+ format_4f f);
         EvPrint ("Timeframe: " +:+ timeframe);
         EvPrint (if in_list timeframe ["1d"; "1wk"; "1mo"]
                  then "Period: " +:+ period
                  else "Period: Automatically set based on timeframe")];
      last_update := Some now;
      last_data_count := Some n |}).
Proof.
  intros Hcalc. unfold report_attempt, mbind, M_bind. rewrite Hcalc.
  unfold print_report, mbind, M_bind, print, set_last_update,
    set_last_data_count, log.
  destruct (in_list timeframe ["1d"; "1wk"; "1mo"]); simpl;
    rewrite <- !app_assoc; reflexivity.
Qed.

(** What it does once [calculate_correlation] has returned a text. *)
Lemma report_attempt_text symbol1 symbol2 timeframe period now n s s' text :
  calculate_correlation E symbol1 symbol2 timeframe period s = (Ret (PyStr text), s') ->
  report_attempt E symbol1 symbol2 timeframe period now n s =
  (Ret tt,
   log (EvPrint (nl +:+ "Error at " +:+ strftime_HMS now +:+ ": " +:+ text)) s').
Proof.
  intros Hcalc. unfold report_attempt, mbind, M_bind. rewrite Hcalc.
  reflexivity.
Qed.

(** C1, as the code has it: for two different instruments whose fetches
    succeed, [calculate_correlation] returns a float and no error,
    whatever the joined columns are; with fewer than two joined rows that
    float is NaN.  The report attempt prints it as the correlation and
    assigns [last_update] and [last_data_count]; it prints no error
    line. *)
Theorem undefined_coefficient_is_reported
    symbol1 symbol2 timeframe period s a b now n :
  symbol1 <> symbol2 ->
  first_fetch E symbol1 timeframe period s = Ret a ->
  first_fetch E symbol2 timeframe period
    (log (EvHistory symbol1 (selected_period timeframe period) timeframe) s) = Ret b ->
  exists f,
    calculate_correlation E symbol1 symbol2 timeframe period s =
      (Ret (PyFloat f), fetched_twice symbol1 symbol2 timeframe period s) /\
    ((length (concat_inner a b) < 2)%nat -> f = nan) /\
    report_attempt E symbol1 symbol2 timeframe period now n s =
      (Ret tt,
       {| trace := trace (fetched_twice symbol1 symbol2 timeframe period s) ++
            [EvPrint (nl +:+ "! New data update at " +:+ strftime_HMS now);
             EvPrint ("Pearson's correlation between " +:+ symbol1 +:+ " and "
                      +:+ symbol2 +:+ ": " +:+ format_4f f);
             EvPrint ("Timeframe: " +:+ timeframe);
             EvPrint (if in_list timeframe ["1d"; "1wk"; "1mo"]
                      then "Period: " +:+ period
                      else "Period: Automatically set based on timeframe")];
          last_update := Some now;
          last_data_count := Some n |}).
Proof.
  intros Hne Ha Hb.
  pose proof (calculate_correlation_distinct E symbol1 symbol2 timeframe period
                s a b Hne Ha Hb) as Hcalc.
  eexists. split; [exact Hcalc | split].
  - intros Hshort. apply Series_corr_short.
    rewrite zip_columns, length_fmap. exact Hshort.
  - apply report_attempt_float. exact Hcalc.
Qed.

End UndefinedCoefficient.

Lemma undefined_coefficient_is_reported_witness :
  exists f,
    calculate_correlation disjoint_world "AAPL" "MSFT" "1d" "1y" initial_state =
      (Ret (PyFloat f), fetched_twice "AAPL" "MSFT" "1d" "1y" initial_state) /\
    f = nan.
Proof.
  destruct (undefined_coefficient_is_reported disjoint_world "AAPL" "MSFT" "1d" "1y"
              initial_state
              (prices [(1, 10); (2, 11)]) (prices [(3, 20); (4, 21)]) 0 2%nat)
    as [f [Hcalc [Hnan _]]].
  - discriminate.
  - reflexivity.
  - reflexivity.
  - exists f. split; [exact Hcalc |]. apply Hnan. simpl. lia.
Defined.

(** C1 fails as stated: two series without a common day join to no row, the
    coefficient is NaN, and the monitor prints it as a correlation and
    records the report; no error line is printed.  Two equal closes give a
    column of zero variance and NaN in the same way. *)
Lemma nan_is_reported_as_a_correlation :
  concat_inner (prices [(1, 10); (2, 11)]) (prices [(3, 20); (4, 21)]) = [] /\
  Series_corr [of_Z 5; of_Z 5] [of_Z 1; of_Z 2] = nan /\
  fst (calculate_correlation disjoint_world "AAPL" "MSFT" "1d" "1y" initial_state) =
    Ret (PyFloat nan) /\
  let s' := snd (loop_body disjoint_world "AAPL" "MSFT" "1d" "1y" initial_state) in
  stdout (trace s') =
    [nl +:+ "! New data update at 00:00:01";
     "Pearson's correlation between AAPL and MSFT: nan";
     "Timeframe: 1d";
     "Period: 1y"] /\
  last_update s' = Some 1000000 /\
  last_data_count s' = Some 2%nat.
Proof. vm_compute. repeat split. Qed.

(** ** Computations that only perform events *)

Lemma state_eta s :
  s = {| trace := trace s ++ [];
         last_update := last_update s;
         last_data_count := last_data_count s |}.
Proof. destruct s. simpl. rewrite app_nil_r. reflexivity. Qed.

Lemma only_logs_ret {A} (a : A) : only_logs (mret a).
Proof. intros s. exists []. apply state_eta. Qed.

Lemma only_logs_raise {A} (e : exn) : only_logs (@raise A e).
Proof. intros s. exists []. apply state_eta. Qed.

Lemma only_logs_bind {A B} (m : M A) (k : A -> M B) :
  only_logs m -> (forall a, only_logs (k a)) -> only_logs (m ≫= k).
Proof.
  intros Hm Hk s. unfold mbind, M_bind.
  destruct (Hm s) as [evs Hs]. destruct (m s) as [[a | e |] s']; simpl in Hs.
  - destruct (Hk a s') as [evs' Hs']. exists (evs ++ evs').
    rewrite Hs'. subst s'. simpl. rewrite app_assoc. reflexivity.
  - exists evs. exact Hs.
  - exists evs. exact Hs.
Qed.

Lemma only_logs_try {A} (body : M A) (handler : exn -> option (M A)) :
  only_logs body ->
  (forall e h, handler e = Some h -> only_logs h) ->
  only_logs (try_except body handler).
Proof.
  intros Hbody Hhandler s. unfold try_except.
  destruct (Hbody s) as [evs Hs]. destruct (body s) as [[a | e |] s']; simpl in Hs.
  - exists evs. exact Hs.
  - destruct (handler e) as [h |] eqn:Hh.
    + destruct (Hhandler e h Hh s') as [evs' Hs']. exists (evs ++ evs').
      rewrite Hs'. subst s'. simpl. rewrite app_assoc. reflexivity.
    + exists evs. exact Hs.
  - exists evs. exact Hs.
Qed.

Lemma only_logs_print text : only_logs (print text).
Proof. intros s. exists [EvPrint text]. reflexivity. Qed.

Lemma only_logs_blocking E {A} ev (answer : nat -> outcome A) :
  only_logs (blocking E ev answer).
Proof.
  intros s. exists [ev]. unfold blocking. destruct (sigint E (tick s)); reflexivity.
Qed.

Lemma only_logs_now E : only_logs (datetime_now E).
Proof. intros s. exists [EvNow]. reflexivity. Qed.

Lemma only_logs_sleep E seconds : only_logs (time_sleep E seconds).
Proof. apply only_logs_blocking. Qed.

Lemma only_logs_get_stock_data E symbol timeframe period :
  only_logs (get_stock_data E symbol timeframe period).
Proof.
  intros s. exists [EvHistory symbol (selected_period timeframe period) timeframe].
  apply get_stock_data_state.
Qed.

Lemma only_logs_getitem df label : only_logs (getitem df label).
Proof.
  unfold getitem. repeat case_match; auto using @only_logs_ret, @only_logs_raise.
Qed.

Lemma only_logs_corr this other : only_logs (corr this other).
Proof.
  unfold corr. repeat case_match; auto using @only_logs_ret, @only_logs_raise.
Qed.

Create HintDb logs.
#[local] Hint Resolve only_logs_ret only_logs_raise only_logs_bind only_logs_try
  only_logs_print only_logs_now only_logs_sleep only_logs_get_stock_data
  only_logs_getitem only_logs_corr : logs.

Lemma only_logs_calculate_correlation E symbol1 symbol2 timeframe period :
  only_logs (calculate_correlation E symbol1 symbol2 timeframe period).
Proof.
  unfold calculate_correlation. apply only_logs_try.
  - repeat (apply only_logs_bind; [auto with logs | intros ?]). auto with logs.
  - intros e h. destruct (is_Exception e); [| discriminate].
    intros [= <-]. auto with logs.
Qed.

Lemma only_logs_print_report symbol1 symbol2 timeframe period now f :
  only_logs (print_report symbol1 symbol2 timeframe period now f).
Proof.
  unfold print_report.
  repeat (apply only_logs_bind; [auto with logs | intros ?]).
  case_match; auto with logs.
Qed.

Lemma only_logs_handlers E e h :
  monitor_handlers E e = Some h -> only_logs h.
Proof.
  destruct e as [| cls msg]; intros [= <-].
  - apply only_logs_bind; auto with logs.
  - repeat (apply only_logs_bind; [auto with logs | intros ?]). auto with logs.
Qed.

Lemma tick_log ev s : tick (log ev s) = S (tick s).
Proof. unfold tick, log. simpl. rewrite length_app. simpl. lia. Qed.

(** ** The monitoring loop *)

Lemma try_except_bind {A B} (m : M A) (k : A -> M B) handler s :
  try_except (m ≫= k) handler s =
  match m s with
  | (Ret a, s') => try_except (k a) handler s'
  | (Raise e, s') => try_except (raise e) handler s'
  | (Spin, s') => (Spin, s')
  end.
Proof.
  unfold try_except, mbind, M_bind, raise.
  destruct (m s) as [[a | e |] s']; reflexivity.
Qed.

(** A guarded sequence whose first step performs exactly the event [ev]
    and whose other steps only perform events: [ev] comes first in what it
    adds to the trace. *)
Lemma try_except_first_event {A B} (m : M A) (k : A -> M B) handler ev :
  (forall s, snd (m s) = log ev s) ->
  (forall a, only_logs (k a)) ->
  (forall e h, handler e = Some h -> only_logs h) ->
  forall s, exists evs,
    snd (try_except (m ≫= k) handler s) =
    {| trace := trace s ++ ev :: evs;
       last_update := last_update s;
       last_data_count := last_data_count s |}.
Proof.
  intros Hm Hk Hh s. rewrite try_except_bind.
  specialize (Hm s). destruct (m s) as [[a | e |] s1]; simpl in Hm; subst s1.
  - destruct (only_logs_try (k a) handler (Hk a) Hh (log ev s)) as [evs Hevs].
    exists evs. rewrite Hevs. simpl. rewrite <- app_assoc. reflexivity.
  - destruct (only_logs_try (raise e) handler (only_logs_raise e) Hh (log ev s))
      as [evs Hevs].
    exists evs. rewrite Hevs. simpl. rewrite <- app_assoc. reflexivity.
  - exists []. reflexivity.
Qed.

Lemma requests_snoc tr ev :
  (length (requests tr) <= length (requests (tr ++ ev)))%nat.
Proof. unfold requests. rewrite omap_app, length_app. lia. Qed.

Lemma requests_history tr symbol w interval evs :
  (length (requests tr) + 1 <=
   length (requests (tr ++ EvHistory symbol w interval :: evs)))%nat.
Proof.
  unfold requests. rewrite omap_app, length_app. simpl. lia.
Qed.

Section Monitor.

Variable E : Env.
Variables symbol1 symbol2 timeframe period : string.

Abbreviation window := (selected_period timeframe period).
Abbreviation stop_notice := (EvPrint (nl +:+ "Monitoring stopped by user")).

(** The regular sleep of line 87 under the handlers of the loop. *)
Lemma sleep_step s :
  try_except (time_sleep E 5;; mret true) (monitor_handlers E) s =
  if sigint E (tick s)
  then (Ret false, log stop_notice (log (EvSleep 5) s))
  else (Ret true, log (EvSleep 5) s).
Proof.
  unfold try_except, mbind, M_bind, time_sleep, blocking.
  destruct (sigint E (tick s)); reflexivity.
Qed.

(** An interrupt that reaches the handlers: the stop notice and
    [break]. *)
Lemma interrupt_step s :
  try_except (raise KeyboardInterrupt) (monitor_handlers E) s =
  (Ret false, log stop_notice s).
Proof. reflexivity. Qed.

(** A failure that reaches the handlers: a line, then the second sleep,
    which no clause guards. *)
Lemma failure_step cls msg s :
  try_except (raise (Exc cls msg)) (monitor_handlers E) s =
  let line := EvPrint (nl +:+ "Unexpected error at "
                       +:+ strftime_HMS (clock E (tick s)) +:+ ": " +:+ msg) in
  (if sigint E (S (S (tick s))) then Raise KeyboardInterrupt else Ret true,
   log (EvSleep 5) (log line (log EvNow s))).
Proof.
  unfold try_except, raise. simpl.
  unfold mbind, M_bind, datetime_now, print, time_sleep, blocking.
  rewrite !tick_log.
  destruct (sigint E (S (S (tick s)))); reflexivity.
Qed.

(** The iteration once the freshness fetch has returned. *)
Lemma loop_body_fetched s series :
  first_fetch E symbol1 timeframe period s = Ret series ->
  loop_body E symbol1 symbol2 timeframe period s =
  try_except
    (report_and_sleep E symbol1 symbol2 timeframe period
                      (clock E (S (tick s))) (length series))
    (monitor_handlers E)
    (log EvNow (log (EvHistory symbol1 window timeframe) s)).
Proof.
  unfold first_fetch. intros Hfetch.
  unfold loop_body. rewrite try_except_bind.
  destruct (get_stock_data E symbol1 timeframe period s) as [r s1] eqn:H1.
  pose proof (get_stock_data_state E symbol1 timeframe period s) as Hs1.
  rewrite H1 in Hs1. simpl in Hfetch, Hs1. subst r s1.
  rewrite try_except_bind. unfold datetime_now. rewrite tick_log.
  reflexivity.
Qed.

(** The iteration when the freshness fetch raises. *)
Lemma loop_body_not_fetched s e :
  first_fetch E symbol1 timeframe period s = Raise e ->
  loop_body E symbol1 symbol2 timeframe period s =
  try_except (raise e) (monitor_handlers E)
             (log (EvHistory symbol1 window timeframe) s).
Proof.
  unfold first_fetch. intros Hfetch.
  unfold loop_body. rewrite try_except_bind.
  destruct (get_stock_data E symbol1 timeframe period s) as [r s1] eqn:H1.
  pose proof (get_stock_data_state E symbol1 timeframe period s) as Hs1.
  rewrite H1 in Hs1. simpl in Hfetch, Hs1. subst r s1.
  reflexivity.
Qed.

Lemma gate_closed now n s :
  should_report (last_update s) (last_data_count s) now n = false ->
  try_except (report_and_sleep E symbol1 symbol2 timeframe period now n)
             (monitor_handlers E) s =
  try_except (time_sleep E 5;; mret true) (monitor_handlers E) s.
Proof.
  intros Hgate. unfold report_and_sleep.
  rewrite try_except_bind. unfold get_state. rewrite Hgate.
  rewrite try_except_bind. reflexivity.
Qed.

Lemma gate_open now n s :
  should_report (last_update s) (last_data_count s) now n = true ->
  try_except (report_and_sleep E symbol1 symbol2 timeframe period now n)
             (monitor_handlers E) s =
  match report_attempt E symbol1 symbol2 timeframe period now n s with
  | (Ret _, s2) => try_except (time_sleep E 5;; mret true) (monitor_handlers E) s2
  | (Raise e, s2) => try_except (raise e) (monitor_handlers E) s2
  | (Spin, s2) => (Spin, s2)
  end.
Proof.
  intros Hgate. unfold report_and_sleep.
  rewrite try_except_bind. unfold get_state. rewrite Hgate.
  rewrite try_except_bind. reflexivity.
Qed.

(** A report attempt begins with a request to the provider. *)
Lemma calculate_correlation_first_request s :
  exists evs,
    snd (calculate_correlation E symbol1 symbol2 timeframe period s) =
    {| trace := trace s ++ EvHistory symbol1 window timeframe :: evs;
       last_update := last_update s;
       last_data_count := last_data_count s |}.
Proof.
  unfold calculate_correlation. apply try_except_first_event.
  - intros s'. apply get_stock_data_state.
  - intros a.
    repeat (apply only_logs_bind; [auto with logs | intros ?]). auto with logs.
  - intros e h. destruct (is_Exception e); [| discriminate].
    intros [= <-]. auto with logs.
Qed.

(** The three ways a report attempt ends. *)
Lemma report_attempt_shape now n s :
  exists evs,
    let sc := {| trace := trace s ++ EvHistory symbol1 window timeframe :: evs;
                 last_update := last_update s;
                 last_data_count := last_data_count s |} in
    (exists f,
        calculate_correlation E symbol1 symbol2 timeframe period s =
          (Ret (PyFloat f), sc) /\
        exists lines,
          report_attempt E symbol1 symbol2 timeframe period now n s =
          (Ret tt, {| trace := trace sc ++ lines;
                      last_update := Some now;
                      last_data_count := Some n |})) \/
    (exists text,
        calculate_correlation E symbol1 symbol2 timeframe period s =
          (Ret (PyStr text), sc) /\
        report_attempt E symbol1 symbol2 timeframe period now n s =
          (Ret tt, log (EvPrint (nl +:+ "Error at " +:+ strftime_HMS now
                                 +:+ ": " +:+ text)) sc)) \/
    report_attempt E symbol1 symbol2 timeframe period now n s =
      (Raise KeyboardInterrupt, sc).
Proof.
  destruct (calculate_correlation_first_request s) as [evs Hsc].
  exists evs. cbv zeta.
  pose proof (calculate_correlation_cases E symbol1 symbol2 timeframe period s)
    as Hcases.
  destruct (calculate_correlation E symbol1 symbol2 timeframe period s)
    as [[[f | text] | e |] sc] eqn:Hcalc; simpl in Hsc, Hcases; subst sc.
  - left. exists f. split; [reflexivity |]. eexists.
    apply (report_attempt_float E _ _ _ _ now n _ _ f Hcalc).
  - right. left. exists text. split; [reflexivity |].
    apply (report_attempt_text E _ _ _ _ now n _ _ text Hcalc).
  - right. right. subst e. unfold report_attempt, mbind, M_bind.
    rewrite Hcalc. reflexivity.
  - contradiction.
Qed.

Lemma only_logs_requests {A} (m : M A) s :
  only_logs m ->
  (length (requests (trace s)) <= length (requests (trace (snd (m s)))))%nat.
Proof.
  intros Hm. destruct (Hm s) as [evs ->]. simpl. apply requests_snoc.
Qed.

Lemma report_attempt_requests now n s :
  (length (requests (trace s)) + 1 <=
   length (requests
     (trace (snd (report_attempt E symbol1 symbol2 timeframe period now n s)))))%nat.
Proof.
  destruct (report_attempt_shape now n s)
    as [evs [(f & _ & lines & ->) | [(text & _ & ->) | ->]]]; simpl.
  - etransitivity; [| apply requests_snoc]. apply requests_history.
  - etransitivity; [| apply requests_snoc]. apply requests_history.
  - apply requests_history.
Qed.

Lemma only_logs_sleep_step :
  only_logs (try_except (time_sleep E 5;; mret true) (monitor_handlers E)).
Proof.
  apply only_logs_try; [auto with logs | apply only_logs_handlers].
Qed.

Lemma only_logs_handled e :
  only_logs (try_except (raise e) (monitor_handlers E)).
Proof.
  apply only_logs_try; [auto with logs | apply only_logs_handlers].
Qed.

Lemma should_report_spec lu lc now n :
  should_report lu lc now n = true <->
  (lu = None \/ exists T0, lu = Some T0 /\ T0 + 60 * 1000000 <= now) /\
  (lc = None \/ exists N0, lc = Some N0 /\ (N0 < n)%nat).
Proof.
  unfold should_report. rewrite andb_true_iff. split.
  - intros [Htime Hcount]. split.
    + destruct lu as [T0 |]; [right | left; reflexivity].
      exists T0. split; [reflexivity |]. apply Z.leb_le in Htime. lia.
    + destruct lc as [N0 |]; [right | left; reflexivity].
      exists N0. split; [reflexivity |]. apply Nat.ltb_lt in Hcount. exact Hcount.
  - intros [[-> | (T0 & -> & Htime)] [-> | (N0 & -> & Hcount)]]; split;
      try reflexivity; try (apply Z.leb_le; lia); apply Nat.ltb_lt; exact Hcount.
Qed.

(** The iteration with the gate closed: a fetch, a look at the clock and
    the sleep, nothing else. *)
Lemma loop_body_gate_closed s series :
  first_fetch E symbol1 timeframe period s = Ret series ->
  should_report (last_update s) (last_data_count s)
                (clock E (S (tick s))) (length series) = false ->
  loop_body E symbol1 symbol2 timeframe period s =
  (Ret (negb (sigint E (S (S (tick s))))),
   {| trace := trace s ++
        [EvHistory symbol1 window timeframe; EvNow; EvSleep 5] ++
        (if sigint E (S (S (tick s))) then [stop_notice] else []);
      last_update := last_update s;
      last_data_count := last_data_count s |}).
Proof.
  intros Hfetch Hgate.
  rewrite (loop_body_fetched s series Hfetch).
  rewrite gate_closed by exact Hgate.
  rewrite sleep_step, !tick_log.
  destruct (sigint E (S (S (tick s)))); unfold log; simpl;
    rewrite <- !app_assoc; reflexivity.
Qed.

(** The iteration with the gate open asks the provider again. *)
Lemma loop_body_gate_open s series :
  first_fetch E symbol1 timeframe period s = Ret series ->
  should_report (last_update s) (last_data_count s)
                (clock E (S (tick s))) (length series) = true ->
  report_attempted s (snd (loop_body E symbol1 symbol2 timeframe period s)) = true.
Proof.
  intros Hfetch Hgate.
  rewrite (loop_body_fetched s series Hfetch).
  rewrite gate_open by exact Hgate.
  set (s1 := log EvNow (log (EvHistory symbol1 window timeframe) s)).
  pose proof (report_attempt_requests (clock E (S (tick s))) (length series) s1)
    as Hreq.
  assert (Hs1 : (length (requests (trace s)) + 1 <=
                 length (requests (trace s1)))%nat).
  { subst s1. unfold log. simpl. rewrite <- app_assoc. apply requests_history. }
  unfold report_attempted. apply Nat.ltb_lt.
  destruct (report_attempt E symbol1 symbol2 timeframe period _ _ s1)
    as [[u | e |] s2]; cbn [snd] in Hreq; cbv beta iota.
  - pose proof (only_logs_requests _ s2 only_logs_sleep_step). lia.
  - pose proof (only_logs_requests _ s2 (only_logs_handled e)). lia.
  - cbn [snd]. lia.
Qed.

(** The two variables after an iteration: as before, or both assigned
    after a report attempt that got a float. *)
Lemma loop_body_updates s :
  let s' := snd (loop_body E symbol1 symbol2 timeframe period s) in
  (last_update s' = last_update s /\ last_data_count s' = last_data_count s) \/
  (exists series f sc,
      first_fetch E symbol1 timeframe period s = Ret series /\
      should_report (last_update s) (last_data_count s)
                    (clock E (S (tick s))) (length series) = true /\
      calculate_correlation E symbol1 symbol2 timeframe period
        (log EvNow (log (EvHistory symbol1 window timeframe) s)) =
        (Ret (PyFloat f), sc) /\
      last_update s' = Some (clock E (S (tick s))) /\
      last_data_count s' = Some (length series)).
Proof.
  cbv zeta.
  destruct (first_fetch E symbol1 timeframe period s) as [series | e |] eqn:Hfetch.
  - rewrite (loop_body_fetched s series Hfetch).
    destruct (should_report (last_update s) (last_data_count s)
                (clock E (S (tick s))) (length series)) eqn:Hgate.
    + rewrite gate_open by exact Hgate.
      destruct (report_attempt_shape (clock E (S (tick s))) (length series)
                  (log EvNow (log (EvHistory symbol1 window timeframe) s)))
        as [evs [(f & Hcalc & lines & ->) | [(text & _ & ->) | ->]]].
      * right. exists series, f. eexists.
        split; [reflexivity |]. split; [exact Hgate |]. split; [exact Hcalc |].
        rewrite sleep_step. case_match; split; reflexivity.
      * left. rewrite sleep_step. case_match; split; reflexivity.
      * left. rewrite interrupt_step. split; reflexivity.
    + left. rewrite gate_closed by exact Hgate.
      rewrite sleep_step. case_match; split; reflexivity.
  - left. rewrite (loop_body_not_fetched s e Hfetch).
    destruct e as [| cls msg].
    + rewrite interrupt_step. split; reflexivity.
    + rewrite failure_step. split; reflexivity.
  - exfalso. exact (get_stock_data_never_spins E _ _ _ s Hfetch).
Qed.

(** An iteration whose freshness fetch raises attempts no report. *)
Lemma no_attempt_without_fetch s e :
  first_fetch E symbol1 timeframe period s = Raise e ->
  report_attempted s (snd (loop_body E symbol1 symbol2 timeframe period s)) = false.
Proof.
  intros Hfetch. rewrite (loop_body_not_fetched s e Hfetch).
  unfold report_attempted. apply Nat.ltb_ge.
  destruct e as [| cls msg].
  - rewrite interrupt_step. unfold log, requests. simpl.
    rewrite !omap_app, !length_app. simpl. lia.
  - rewrite failure_step. unfold log, requests. simpl.
    rewrite !omap_app, !length_app. simpl. lia.
Qed.

(** C3: in an iteration whose freshness fetch returns [n] rows, a report
    is attempted exactly when the last report is unset or at least 60
    seconds old, and the last count is unset or below [n].  With both set
    to [T0] and [N0], an iteration before [T0 + 60s], or one whose count
    does not exceed [N0], attempts and prints no report: it fetches,
    reads the clock and sleeps. *)
Theorem report_gate s series :
  first_fetch E symbol1 timeframe period s = Ret series ->
  let n := length series in
  let now := clock E (S (tick s)) in
  let s' := snd (loop_body E symbol1 symbol2 timeframe period s) in
  (report_attempted s s' = true <->
     (last_update s = None \/
      exists T0, last_update s = Some T0 /\ T0 + 60 * 1000000 <= now) /\
     (last_data_count s = None \/
      exists N0, last_data_count s = Some N0 /\ (N0 < n)%nat)) /\
  (forall T0 N0,
      last_update s = Some T0 ->
      last_data_count s = Some N0 ->
      now < T0 + 60 * 1000000 \/ (n <= N0)%nat ->
      report_attempted s s' = false /\
      trace s' = trace s ++
        [EvHistory symbol1 window timeframe; EvNow; EvSleep 5] ++
        (if sigint E (S (S (tick s))) then [stop_notice] else []) /\
      last_update s' = Some T0 /\
      last_data_count s' = Some N0).
Proof.
  intros Hfetch n now s'.
  assert (Hclosed :
    should_report (last_update s) (last_data_count s) now n = false ->
    report_attempted s s' = false /\
    trace s' = trace s ++
      [EvHistory symbol1 window timeframe; EvNow; EvSleep 5] ++
      (if sigint E (S (S (tick s))) then [stop_notice] else []) /\
    last_update s' = last_update s /\
    last_data_count s' = last_data_count s).
  { intros Hgate. subst s'.
    rewrite (loop_body_gate_closed s series Hfetch Hgate). simpl.
    split; [| repeat split].
    unfold report_attempted. simpl. apply Nat.ltb_ge.
    unfold requests. rewrite omap_app, length_app.
    destruct (sigint E (S (S (tick s)))); simpl; lia. }
  split.
  - rewrite <- should_report_spec.
    destruct (should_report (last_update s) (last_data_count s) now n) eqn:Hgate.
    + split; [reflexivity |]. intros _.
      exact (loop_body_gate_open s series Hfetch Hgate).
    + destruct (Hclosed eq_refl) as [-> _]. reflexivity.
  - intros T0 N0 HT0 HN0 Hearly.
    assert (Hgate : should_report (last_update s) (last_data_count s) now n = false).
    { rewrite HT0, HN0. unfold should_report. apply andb_false_iff.
      destruct Hearly as [Htime | Hcount].
      - left. apply Z.leb_gt. lia.
      - right. apply Nat.ltb_ge. exact Hcount. }
    destruct (Hclosed Hgate) as (Hno & Htrace & Hlu & Hlc).
    rewrite <- HT0, <- HN0. repeat split; assumption.
Qed.

End Monitor.

Lemma report_gate_witness :
  first_fetch steady_world "AAPL" "1d" "1y" reported_state =
    Ret (prices [(1, 1); (2, 2); (3, 3)]) /\
  report_attempted reported_state
    (snd (loop_body steady_world "AAPL" "MSFT" "1d" "1y" reported_state)) = false.
Proof.
  split; [reflexivity |].
  destruct (report_gate steady_world "AAPL" "MSFT" "1d" "1y" reported_state
              (prices [(1, 1); (2, 2); (3, 3)]) eq_refl) as [_ Hclosed].
  destruct (Hclosed 100000000 2%nat eq_refl eq_refl) as [Hno _].
  - left. vm_compute. reflexivity.
  - exact Hno.
Defined.

Section MonitorState.

Variable E : Env.
Variables symbol1 symbol2 timeframe period : string.

Abbreviation window := (selected_period timeframe period).

(** C4: when the gated computation returns an error text, the iteration
    prints the line [Error at HH:MM:SS: text] and leaves [last_update]
    and [last_data_count] as they were; when it returns a float, both
    are assigned, to the instant read in this iteration and to the count
    [n]; and no iteration changes either of them in any other way. *)
Theorem state_updated_only_on_success s :
  let now := clock E (S (tick s)) in
  let s1 := log EvNow (log (EvHistory symbol1 window timeframe) s) in
  let s' := snd (loop_body E symbol1 symbol2 timeframe period s) in
  (forall series text sc,
      first_fetch E symbol1 timeframe period s = Ret series ->
      should_report (last_update s) (last_data_count s) now (length series) = true ->
      calculate_correlation E symbol1 symbol2 timeframe period s1 =
        (Ret (PyStr text), sc) ->
      trace s' = trace sc ++
        [EvPrint (nl +:+ "Error at " +:+ strftime_HMS now +:+ ": " +:+ text);
         EvSleep 5] ++
        (if sigint E (S (tick sc))
         then [EvPrint (nl +:+ "Monitoring stopped by user")] else []) /\
      last_update s' = last_update s /\
      last_data_count s' = last_data_count s) /\
  (forall series f sc,
      first_fetch E symbol1 timeframe period s = Ret series ->
      should_report (last_update s) (last_data_count s) now (length series) = true ->
      calculate_correlation E symbol1 symbol2 timeframe period s1 =
        (Ret (PyFloat f), sc) ->
      last_update s' = Some now /\
      last_data_count s' = Some (length series)) /\
  ((last_update s' = last_update s /\ last_data_count s' = last_data_count s) \/
   (exists series f sc,
       first_fetch E symbol1 timeframe period s = Ret series /\
       should_report (last_update s) (last_data_count s) now (length series) = true /\
       calculate_correlation E symbol1 symbol2 timeframe period s1 =
         (Ret (PyFloat f), sc) /\
       last_update s' = Some now /\
       last_data_count s' = Some (length series))).
Proof.
  intros now s1 s'. split; [| split].
  - intros series text sc Hfetch Hgate Hcalc. subst s'.
    rewrite (loop_body_fetched E _ symbol2 _ _ s series Hfetch).
    rewrite gate_open by exact Hgate.
    fold s1 now.
    rewrite (report_attempt_text E _ _ _ _ now (length series) s1 sc text Hcalc).
    rewrite sleep_step, tick_log.
    destruct (only_logs_calculate_correlation E symbol1 symbol2 timeframe period s1)
      as [evs Hsc].
    rewrite Hcalc in Hsc. simpl in Hsc.
    destruct (sigint E (S (tick sc))); subst sc; simpl;
      rewrite <- !app_assoc; repeat split.
  - intros series f sc Hfetch Hgate Hcalc. subst s'.
    rewrite (loop_body_fetched E _ symbol2 _ _ s series Hfetch).
    rewrite gate_open by exact Hgate.
    fold s1 now.
    rewrite (report_attempt_float E _ _ _ _ now (length series) s1 sc f Hcalc).
    rewrite sleep_step. case_match; split; reflexivity.
  - apply loop_body_updates.
Qed.

Lemma paired_loop_body s :
  paired s -> paired (snd (loop_body E symbol1 symbol2 timeframe period s)).
Proof.
  intros Hpaired.
  destruct (loop_body_updates E symbol1 symbol2 timeframe period s)
    as [[Hlu Hlc] | (series & f & sc & _ & _ & _ & Hlu & Hlc)].
  - unfold paired. rewrite Hlu, Hlc. exact Hpaired.
  - right. eauto.
Qed.

Lemma paired_boundary k : forall s s',
  paired s ->
  boundary E symbol1 symbol2 timeframe period k s = Some s' ->
  paired s'.
Proof.
  induction k as [| k IH]; intros s s' Hpaired Hreach; simpl in Hreach.
  - injection Hreach as <-. exact Hpaired.
  - pose proof (paired_loop_body s Hpaired) as Hnext.
    destruct (loop_body E symbol1 symbol2 timeframe period s)
      as [[[|] | e |] s1]; try discriminate.
    exact (IH s1 s' Hnext Hreach).
Qed.

(** The loop run with fuel goes through the boundaries. *)
Lemma monitor_loop_boundary k : forall fuel s s',
  boundary E symbol1 symbol2 timeframe period k s = Some s' ->
  monitor_loop E (k + fuel) symbol1 symbol2 timeframe period s =
  monitor_loop E fuel symbol1 symbol2 timeframe period s'.
Proof.
  induction k as [| k IH]; intros fuel s s' Hreach; simpl in Hreach.
  - injection Hreach as <-. reflexivity.
  - simpl. unfold mbind, M_bind.
    destruct (loop_body E symbol1 symbol2 timeframe period s)
      as [[[|] | e |] s1]; try discriminate.
    exact (IH fuel s1 s' Hreach).
Qed.

Lemma continuous_monitor_start fuel s0 :
  continuous_monitor E fuel symbol1 symbol2 timeframe period s0 =
  monitor_loop E fuel symbol1 symbol2 timeframe period (monitor_start s0).
Proof. reflexivity. Qed.

(** C10: at every boundary of the loop of [continuous_monitor],
    [last_update] and [last_data_count] are both unset or both set. *)
Theorem monitor_state_paired k s0 s :
  boundary E symbol1 symbol2 timeframe period k (monitor_start s0) = Some s ->
  paired s.
Proof.
  apply paired_boundary. left. split; reflexivity.
Qed.

End MonitorState.

Lemma state_updated_only_on_success_witness :
  let s' := snd (loop_body steady_world "AAPL" "AAPL" "1d" "1y" initial_state) in
  last_update s' = None /\ last_data_count s' = None.
Proof.
  destruct (state_updated_only_on_success steady_world "AAPL" "AAPL" "1d" "1y"
              initial_state) as [Herror _].
  destruct (Herror (prices [(1, 1); (2, 2); (3, 3)])
              "Error: DataFrame.corr() got multiple values for argument 'method'"
              (fetched_twice "AAPL" "AAPL" "1d" "1y"
                 (log EvNow (log (EvHistory "AAPL" "1y" "1d") initial_state)))
              eq_refl eq_refl eq_refl) as (_ & Hlu & Hlc).
  split; [exact Hlu | exact Hlc].
Defined.

Lemma monitor_state_paired_witness :
  exists s,
    boundary steady_world "AAPL" "MSFT" "1d" "1y" 2 (monitor_start initial_state)
    = Some s /\
    paired s.
Proof.
  eexists. split; [vm_compute; reflexivity |].
  apply (monitor_state_paired steady_world "AAPL" "MSFT" "1d" "1y" 2 initial_state).
  vm_compute. reflexivity.
Defined.

Lemma failures_become_error_values_witness :
  first_fetch outage_world "AAPL" "1d" "1y" initial_state =
    Raise (Exc OtherError "network down") /\
  fst (calculate_correlation outage_world "AAPL" "MSFT" "1d" "1y" initial_state) =
    Ret (PyStr "Error: network down").
Proof.
  split; [reflexivity |].
  destruct (failures_become_error_values outage_world "AAPL" "MSFT" "1d" "1y"
              initial_state) as (_ & _ & Hfirst & _ & _).
  apply (Hfirst OtherError "network down"). reflexivity.
Defined.

(** ** Cancellation *)

Section Cancellation.

Variable E : Env.
Variables symbol1 symbol2 timeframe period : string.

(** [break] ends the loop: the function returns. *)
Lemma break_ends_the_loop fuel s s' :
  loop_body E symbol1 symbol2 timeframe period s = (Ret false, s') ->
  monitor_loop E (S fuel) symbol1 symbol2 timeframe period s = (Ret tt, s').
Proof.
  intros Hbreak. simpl. unfold mbind, M_bind. rewrite Hbreak. reflexivity.
Qed.

(** X17: in any world, Ctrl-C during the freshness fetch is answered by
    the stop notice and [break]: the loop returns at once, having asked the
    provider once and printed only the notice. *)
Lemma interrupt_in_fetch_stops fuel s :
  sigint E (tick s) = true ->
  monitor_loop E (S fuel) symbol1 symbol2 timeframe period s =
  (Ret tt,
   log (EvPrint (nl +:+ "Monitoring stopped by user"))
       (log (EvHistory symbol1 (selected_period timeframe period) timeframe) s)).
Proof.
  intros Hctrl. apply break_ends_the_loop.
  rewrite (loop_body_not_fetched E _ symbol2 _ _ s KeyboardInterrupt).
  - apply interrupt_step.
  - unfold first_fetch. rewrite get_stock_data_spec, Hctrl. reflexivity.
Qed.

(** In any world: after a failed freshness fetch, Ctrl-C during the sleep
    of line 94 leaves the loop as an exception. *)
Lemma interrupt_in_backoff_sleep fuel s cls msg :
  first_fetch E symbol1 timeframe period s = Raise (Exc cls msg) ->
  sigint E (tick s + 3) = true ->
  fst (monitor_loop E (S fuel) symbol1 symbol2 timeframe period s) =
  Raise KeyboardInterrupt.
Proof.
  intros Hfetch Hctrl. simpl. unfold mbind, M_bind.
  rewrite (loop_body_not_fetched E _ symbol2 _ _ s _ Hfetch).
  rewrite failure_step, tick_log.
  replace (S (S (S (tick s)))) with (tick s + 3)%nat by lia.
  rewrite Hctrl. reflexivity.
Qed.

End Cancellation.

(** ** Findings *)

(** C6: correlating an instrument with itself.  The series has three rows
    and nonzero variance, and [Series.corr] of its column with itself is
    exactly 1.0; but both columns of the joined frame get the same label,
    the selection by that label is a frame, and [calculate_correlation]
    returns the text of a [TypeError] where the coefficient 1.0 is due. *)
Theorem self_correlation_is_an_error :
  first_fetch steady_world "AAPL" "1d" "1y" initial_state =
    Ret (prices [(1, 1); (2, 2); (3, 3)]) /\
  Series_corr [of_Z 1; of_Z 2; of_Z 3] [of_Z 1; of_Z 2; of_Z 3] = of_Z 1 /\
  fst (calculate_correlation steady_world "AAPL" "AAPL" "1d" "1y" initial_state) =
    Ret (PyStr "Error: DataFrame.corr() got multiple values for argument 'method'").
Proof. vm_compute. repeat split. Qed.

(** With two different labels the same data give a coefficient. *)
Example cross_correlation_is_a_float :
  fst (calculate_correlation steady_world "AAPL" "MSFT" "1d" "1y" initial_state) =
    Ret (PyFloat (S754_finite false 8947745144577444 (-53))) /\
  format_4f (S754_finite false 8947745144577444 (-53)) = "0.9934".
Proof. vm_compute. repeat split. Qed.

(** C8: when yfinance is not installed the script stops at its first line:
    the import at the top of the module raises before the guarded import
    of line 131 is reached, nothing is printed, and the [ImportError]
    leaves the script. *)
Theorem missing_dependency_stops_at_line_1 (E : Env) (fuel : nat) :
  installed E "yfinance" = false ->
  run E fuel =
    (Raise (Exc ImportError "No module named 'yfinance'"),
     log (EvImport "yfinance") initial_state) /\
  stdout (trace (snd (run E fuel))) = [] /\
  exits_with_success (fst (run E fuel)) = false.
Proof.
  intros Hmissing.
  assert (Hrun : run E fuel =
                 (Raise (Exc ImportError "No module named 'yfinance'"),
                  log (EvImport "yfinance") initial_state)).
  { unfold run, script, mbind, M_bind, import. rewrite Hmissing. reflexivity. }
  rewrite Hrun. repeat split.
Qed.

Lemma missing_dependency_stops_at_line_1_witness :
  installed bare_world "yfinance" = false /\
  stdout (trace (snd (run bare_world 1))) = [].
Proof.
  split; [reflexivity |].
  apply (missing_dependency_stops_at_line_1 bare_world 1). reflexivity.
Defined.

(** C9: Ctrl-C during the sleep that follows a failed fetch (line 94).
    That sleep stands in the [except Exception] clause, which the
    [except KeyboardInterrupt] clause of the same [try] does not guard: the
    interrupt leaves the loop, [main] and the script as an exception, no
    stop notice is printed, and the process does not end with success. *)
Theorem interrupt_in_backoff_sleep_escapes (fuel : nat) :
  let r := run outage_world (S fuel) in
  fst r = Raise KeyboardInterrupt /\
  exits_with_success (fst r) = false /\
  in_list (nl +:+ "Monitoring stopped by user") (stdout (trace (snd r))) = false /\
  last (trace (snd r)) = Some (EvSleep 5).
Proof. vm_compute. repeat split. Qed.

(** The same interrupt during the regular sleep of line 87 is caught: one
    stop notice, the loop ends, and the script runs to its end. *)
Example interrupt_in_regular_sleep_stops (fuel : nat) :
  let r := run patient_world (S fuel) in
  fst r = Ret tt /\
  exits_with_success (fst r) = true /\
  List.filter (String.eqb (nl +:+ "Monitoring stopped by user"))
              (stdout (trace (snd r))) = [nl +:+ "Monitoring stopped by user"] /\
  last (trace (snd r)) = Some (EvPrint (nl +:+ "Monitoring stopped by user")).
Proof. vm_compute. repeat split. Qed.

(** * More of the script *)

(** ** The window of a fetch *)

(** The window that [get_stock_data] asks for, by cases on the timeframe. *)
Lemma selected_period_cases timeframe period :
  selected_period timeframe period =
  if in_list timeframe daily_or_coarser then period
  else if String.eqb timeframe "1m" then "7d"
  else if in_list timeframe ["5m"; "15m"; "30m"] then "60d"
  else if in_list timeframe ["1h"; "4h"] then "730d"
  else "1y".
Proof.
  unfold in_list, daily_or_coarser. cbn [existsb orb].
  destruct (String.eqb_spec timeframe "1d") as [-> | H1d]; [reflexivity |].
  destruct (String.eqb_spec timeframe "1wk") as [-> | H1wk]; [reflexivity |].
  destruct (String.eqb_spec timeframe "1mo") as [-> | H1mo]; [reflexivity |].
  destruct (String.eqb_spec timeframe "1m") as [-> | H1m]; [reflexivity |].
  destruct (String.eqb_spec timeframe "5m") as [-> | H5m]; [reflexivity |].
  destruct (String.eqb_spec timeframe "15m") as [-> | H15m]; [reflexivity |].
  destruct (String.eqb_spec timeframe "30m") as [-> | H30m]; [reflexivity |].
  destruct (String.eqb_spec timeframe "1h") as [-> | H1h]; [reflexivity |].
  destruct (String.eqb_spec timeframe "4h") as [-> | H4h]; [reflexivity |].
  cbn [orb]. unfold selected_period, timeframe_mapping.
  rewrite (not_elem_of_list_to_map_1 _ timeframe); [reflexivity |].
  cbn [fmap list_fmap fst]. rewrite !elem_of_cons, elem_of_nil. tauto.
Qed.

Lemma in_list_spec x l : in_list x l = true <-> In x l.
Proof.
  unfold in_list. rewrite existsb_exists. split.
  - intros (y & Hy & Heq). apply String.eqb_eq in Heq. subst y. exact Hy.
  - intros Hx. exists x. split; [exact Hx | apply String.eqb_refl].
Qed.

Section Window.

Variable E : Env.

(** X1: a timeframe that is none of the nine known ones is fetched with
    the window 1y, whatever period the caller gives. *)
Theorem unknown_timeframe_defaults_to_1y symbol timeframe period s :
  in_list timeframe valid_timeframes = false ->
  requests (trace (snd (get_stock_data E symbol timeframe period s))) =
  requests (trace s) ++ [(symbol, "1y", timeframe)].
Proof.
  intros Hunknown.
  rewrite get_stock_data_state. unfold log, requests. simpl.
  rewrite omap_app. simpl. do 3 f_equal.
  rewrite selected_period_cases.
  unfold in_list, valid_timeframes, daily_or_coarser in *.
  cbn [existsb] in *.
  repeat (apply orb_false_elim in Hunknown; destruct Hunknown as [? Hunknown]).
  repeat match goal with H : String.eqb _ _ = false |- _ => rewrite H; clear H end.
  reflexivity.
Qed.

End Window.

Lemma unknown_timeframe_defaults_to_1y_witness :
  requests (trace (snd (get_stock_data steady_world "AAPL" "2h" "5y" initial_state))) =
  [("AAPL", "1y", "2h")].
Proof.
  apply (unknown_timeframe_defaults_to_1y steady_world "AAPL" "2h" "5y" initial_state).
  reflexivity.
Defined.

(** ** Rules for [conforms] *)

Section Conforms.

Context {A B : Type}.
Variable P : event -> Prop.

Lemma conforms_ret (Q : A -> Prop) R a : Q a -> conforms P Q R (mret a).
Proof.
  intros Ha s. exists []. split; [symmetry; apply app_nil_r |].
  split; [constructor | exact Ha].
Qed.

Lemma conforms_raise (Q : A -> Prop) (R : exn -> Prop) e :
  R e -> conforms P Q R (raise e).
Proof.
  intros He s. exists []. split; [symmetry; apply app_nil_r |].
  split; [constructor | exact He].
Qed.

Lemma conforms_spin (Q : A -> Prop) R : conforms P Q R spin.
Proof.
  intros s. exists []. split; [symmetry; apply app_nil_r |].
  split; [constructor | exact I].
Qed.

Lemma conforms_bind (Q' : A -> Prop) (Q : B -> Prop) R (m : M A) (k : A -> M B) :
  conforms P Q' R m ->
  (forall a, Q' a -> conforms P Q R (k a)) ->
  conforms P Q R (m ≫= k).
Proof.
  intros Hm Hk s. unfold mbind, M_bind.
  destruct (Hm s) as (evs & Htrace & Hevs & Hres).
  destruct (m s) as [[a | e |] s1]; simpl in Htrace, Hres.
  - destruct (Hk a Hres s1) as (evs' & Htrace' & Hevs' & Hres').
    exists (evs ++ evs'). rewrite Htrace', Htrace, app_assoc.
    split; [reflexivity |]. split; [| exact Hres'].
    apply Forall_app. split; assumption.
  - exists evs. simpl. auto.
  - exists evs. simpl. auto.
Qed.

Lemma conforms_try (Q : A -> Prop) R' R (body : M A) handler :
  conforms P Q R' body ->
  (forall e, R' e ->
     match handler e with
     | Some h => conforms P Q R h
     | None => R e
     end) ->
  conforms P Q R (try_except body handler).
Proof.
  intros Hbody Hhandler s. unfold try_except.
  destruct (Hbody s) as (evs & Htrace & Hevs & Hres).
  destruct (body s) as [[a | e |] s1]; simpl in Htrace, Hres.
  - exists evs. simpl. auto.
  - specialize (Hhandler e Hres). destruct (handler e) as [h |].
    + destruct (Hhandler s1) as (evs' & Htrace' & Hevs' & Hres').
      exists (evs ++ evs'). rewrite Htrace', Htrace, app_assoc.
      split; [reflexivity |]. split; [| exact Hres'].
      apply Forall_app. split; assumption.
    + exists evs. simpl. auto.
  - exists evs. simpl. auto.
Qed.

Lemma conforms_weaken (Q Q' : A -> Prop) (R R' : exn -> Prop) (m : M A) :
  conforms P Q R m ->
  (forall a, Q a -> Q' a) ->
  (forall e, R e -> R' e) ->
  conforms P Q' R' m.
Proof.
  intros Hm HQ HR s. destruct (Hm s) as (evs & Htrace & Hevs & Hres).
  exists evs. split; [exact Htrace |]. split; [exact Hevs |].
  destruct (fst (m s)); auto.
Qed.

End Conforms.

Section ConformsEffects.

Variable E : Env.
Variable P : event -> Prop.
Variable R : exn -> Prop.

Lemma conforms_one {A} (Q : A -> Prop) ev (r : outcome A) s :
  P ev ->
  match r with Ret a => Q a | Raise e => R e | Spin => True end ->
  exists evs,
    trace (snd (r, log ev s)) = trace s ++ evs /\ Forall P evs /\
    match fst (r, log ev s) with Ret a => Q a | Raise e => R e | Spin => True end.
Proof.
  intros Hev Hr. exists [ev]. split; [reflexivity |].
  split; [repeat constructor; exact Hev | exact Hr].
Qed.

Lemma conforms_blocking {A} (Q : A -> Prop) ev (answer : nat -> outcome A) :
  P ev ->
  R KeyboardInterrupt ->
  (forall n, match answer n with Ret a => Q a | Raise e => R e | Spin => True end) ->
  conforms P Q R (blocking E ev answer).
Proof.
  intros Hev Hctrl Hanswer s. unfold blocking.
  destruct (sigint E (tick s)).
  - apply conforms_one; assumption.
  - apply conforms_one; [assumption | apply Hanswer].
Qed.

Lemma conforms_print (Q : unit -> Prop) text :
  P (EvPrint text) -> Q tt -> conforms P Q R (print text).
Proof. intros Hev Hq s. apply (conforms_one Q); assumption. Qed.

Lemma conforms_now (Q : Z -> Prop) :
  P EvNow -> (forall t, Q t) -> conforms P Q R (datetime_now E).
Proof. intros Hev Hq s. apply (conforms_one Q); [assumption | apply Hq]. Qed.

Lemma conforms_sleep (Q : unit -> Prop) seconds :
  P (EvSleep seconds) -> R KeyboardInterrupt -> Q tt ->
  conforms P Q R (time_sleep E seconds).
Proof. intros Hev Hctrl Hq. apply conforms_blocking; auto. Qed.

Lemma conforms_input (Q : string -> Prop) prompt :
  P (EvInput prompt) -> R KeyboardInterrupt ->
  R (Exc EOFError "EOF when reading a line") ->
  (forall line, Q line) ->
  conforms P Q R (input E prompt).
Proof.
  intros Hev Hctrl Heof Hq. apply conforms_blocking; [assumption.. |].
  intros n. destruct (stdin E n); [apply Hq | exact Heof].
Qed.

Lemma conforms_import (Q : unit -> Prop) name :
  P (EvImport name) ->
  R (Exc ImportError ("No module named '" +:+ name +:+ "'")) ->
  Q tt ->
  conforms P Q R (import E name).
Proof.
  intros Hev Hmissing Hq s. unfold import.
  destruct (installed E name); apply (conforms_one Q); assumption.
Qed.

Lemma conforms_set_last_update (Q : unit -> Prop) v :
  Q tt -> conforms P Q R (set_last_update v).
Proof.
  intros Hq s. exists []. split; [symmetry; apply app_nil_r |].
  split; [constructor | exact Hq].
Qed.

Lemma conforms_set_last_data_count (Q : unit -> Prop) v :
  Q tt -> conforms P Q R (set_last_data_count v).
Proof.
  intros Hq s. exists []. split; [symmetry; apply app_nil_r |].
  split; [constructor | exact Hq].
Qed.

Lemma conforms_get_state (Q : State -> Prop) :
  (forall s, Q s) -> conforms P Q R get_state.
Proof.
  intros Hq s. exists []. split; [symmetry; apply app_nil_r |].
  split; [constructor | apply Hq].
Qed.

(** [get_stock_data] performs its one request and raises what it likes. *)
Lemma conforms_get_stock_data (Q : Series -> Prop) symbol timeframe period :
  P (EvHistory symbol (selected_period timeframe period) timeframe) ->
  (forall e, R e) ->
  (forall series, Q series) ->
  conforms P Q R (get_stock_data E symbol timeframe period).
Proof.
  intros Hev Hr Hq s. rewrite get_stock_data_spec.
  apply (conforms_one Q); [exact Hev |].
  repeat case_match; auto.
Qed.

End ConformsEffects.

Lemma conforms_events_weaken {A} (P P' : event -> Prop) (Q : A -> Prop) R (m : M A) :
  (forall ev, P ev -> P' ev) -> conforms P Q R m -> conforms P' Q R m.
Proof.
  intros HP Hm s. destruct (Hm s) as (evs & Htrace & Hevs & Hres).
  exists evs. split; [exact Htrace |]. split; [| exact Hres].
  eapply Forall_impl; [exact Hevs | exact HP].
Qed.

(** ** What the monitor may do *)

Section Footprint.

Variable E : Env.
Variables symbol1 symbol2 timeframe period : string.

Abbreviation may := (monitor_event symbol1 symbol2 timeframe period).
Abbreviation interrupt_only := (fun e : exn => e = KeyboardInterrupt).
Abbreviation anything := (fun _ : exn => True).

Lemma may_fetch_first :
  may (EvHistory symbol1 (selected_period timeframe period) timeframe).
Proof. simpl. auto. Qed.

Lemma may_fetch_second :
  may (EvHistory symbol2 (selected_period timeframe period) timeframe).
Proof. simpl. auto. Qed.

Lemma calculate_correlation_footprint :
  conforms may (fun _ => True) interrupt_only
           (calculate_correlation E symbol1 symbol2 timeframe period).
Proof.
  unfold calculate_correlation.
  apply conforms_try with (R' := anything).
  - apply conforms_bind with (Q' := fun _ => True);
      [apply conforms_get_stock_data; auto using may_fetch_first |].
    intros a _.
    apply conforms_bind with (Q' := fun _ => True);
      [apply conforms_get_stock_data; auto using may_fetch_second |].
    intros b _. unfold getitem, corr. simpl.
    repeat case_match;
      repeat first [ apply conforms_ret; exact I
                   | apply conforms_raise; exact I
                   | apply conforms_bind with (Q' := fun _ => True); [| intros ? _] ].
  - intros [| cls msg] _; simpl; [reflexivity |].
    apply conforms_ret. exact I.
Qed.

Lemma print_report_footprint now f :
  conforms may (fun _ => True) interrupt_only
           (print_report symbol1 symbol2 timeframe period now f).
Proof.
  unfold print_report.
  repeat (apply conforms_bind with (Q' := fun _ => True);
          [apply conforms_print; [simpl; discriminate | exact I] | intros ? _]).
  case_match; apply conforms_print; try exact I; simpl; discriminate.
Qed.

Lemma report_attempt_footprint now n :
  conforms may (fun _ => True) interrupt_only
           (report_attempt E symbol1 symbol2 timeframe period now n).
Proof.
  unfold report_attempt.
  apply conforms_bind with (Q' := fun _ => True);
    [apply calculate_correlation_footprint |].
  intros [f | text] _.
  - apply conforms_bind with (Q' := fun _ => True);
      [apply print_report_footprint | intros ? _].
    apply conforms_bind with (Q' := fun _ => True);
      [apply conforms_set_last_update; exact I | intros ? _].
    apply conforms_set_last_data_count. exact I.
  - apply conforms_print; [simpl; discriminate | exact I].
Qed.

Lemma loop_body_footprint :
  conforms may (fun _ => True) interrupt_only
           (loop_body E symbol1 symbol2 timeframe period).
Proof.
  unfold loop_body. apply conforms_try with (R' := anything).
  - apply conforms_bind with (Q' := fun _ => True);
      [apply conforms_get_stock_data; auto using may_fetch_first |].
    intros series _.
    apply conforms_bind with (Q' := fun _ => True);
      [apply conforms_now; [exact I | auto] |].
    intros now _. unfold report_and_sleep.
    apply conforms_bind with (Q' := fun _ => True);
      [apply conforms_get_state; auto |].
    intros s _.
    apply conforms_bind with (Q' := fun _ => True).
    + case_match.
      * eapply conforms_weaken; [apply report_attempt_footprint | auto | auto].
      * apply conforms_ret. exact I.
    + intros ? _.
      apply conforms_bind with (Q' := fun _ => True);
        [apply conforms_sleep; simpl; auto | intros ? _].
      apply conforms_ret. exact I.
  - intros [| cls msg] _; simpl.
    + apply conforms_bind with (Q' := fun _ => True);
        [apply conforms_print; [simpl; discriminate | exact I] | intros ? _].
      apply conforms_ret. exact I.
    + apply conforms_bind with (Q' := fun _ => True);
        [apply conforms_now; [exact I | auto] | intros now _].
      apply conforms_bind with (Q' := fun _ => True);
        [apply conforms_print; [simpl; discriminate | exact I] | intros ? _].
      apply conforms_bind with (Q' := fun _ => True);
        [apply conforms_sleep; simpl; auto | intros ? _].
      apply conforms_ret. exact I.
Qed.

Lemma monitor_loop_footprint fuel :
  conforms may (fun _ => True) interrupt_only
           (monitor_loop E fuel symbol1 symbol2 timeframe period).
Proof.
  induction fuel as [| fuel IH]; simpl.
  - apply conforms_spin.
  - apply conforms_bind with (Q' := fun _ => True);
      [apply loop_body_footprint |].
    intros [|] _; [exact IH | apply conforms_ret; exact I].
Qed.

Lemma continuous_monitor_footprint fuel :
  conforms may (fun _ => True) interrupt_only
           (continuous_monitor E fuel symbol1 symbol2 timeframe period).
Proof.
  unfold continuous_monitor.
  apply conforms_bind with (Q' := fun _ => True);
    [apply conforms_set_last_update; exact I | intros ? _].
  apply conforms_bind with (Q' := fun _ => True);
    [apply conforms_set_last_data_count; exact I | intros ? _].
  apply monitor_loop_footprint.
Qed.

End Footprint.

(** ** What [main] hands to the monitor *)

Lemma upper_ascii_idempotent c : upper_ascii (upper_ascii c) = upper_ascii c.
Proof. destruct c as [[] [] [] [] [] [] [] []]; reflexivity. Qed.

Lemma upper_idempotent s : upper (upper s) = upper s.
Proof.
  unfold upper. induction s as [| c s IH]; simpl; [reflexivity |].
  rewrite upper_ascii_idempotent, IH. reflexivity.
Qed.

(** The window of a valid timeframe is one of the provider's periods. *)
Lemma selected_period_valid timeframe period :
  (in_list timeframe daily_or_coarser = true -> In period valid_periods) ->
  In (selected_period timeframe period) (valid_periods ++ ["7d"; "60d"; "730d"]).
Proof.
  intros Hperiod. rewrite selected_period_cases.
  destruct (in_list timeframe daily_or_coarser).
  - apply in_or_app. left. apply Hperiod. reflexivity.
  - repeat case_match; simpl; tauto.
Qed.

Section MainFootprint.

Variable E : Env.

Abbreviation input_failure :=
  (fun e : exn => e = KeyboardInterrupt \/ e = Exc EOFError "EOF when reading a line").

Lemma monitor_event_script_event symbol1 symbol2 timeframe period ev :
  In timeframe valid_timeframes ->
  (in_list timeframe daily_or_coarser = true -> In period valid_periods) ->
  monitor_event (upper symbol1) (upper symbol2) timeframe period ev ->
  script_event ev.
Proof.
  intros Htf Hperiod. destruct ev as [| | | symbol window interval | |];
    simpl; try tauto.
  intros ([-> | ->] & -> & ->);
    (split; [apply upper_idempotent |]);
    (split; [exact Htf | apply selected_period_valid; exact Hperiod]).
Qed.

Lemma main_footprint fuel :
  conforms script_event (fun _ => True) input_failure (main E fuel).
Proof.
  unfold main.
  apply conforms_bind with (Q' := fun _ => True);
    [apply conforms_print; [simpl; discriminate | exact I] | intros ? _].
  apply conforms_bind with (Q' := fun _ => True);
    [apply conforms_print; [simpl; discriminate | exact I] | intros ? _].
  apply conforms_bind with (Q' := fun _ => True);
    [apply conforms_input; simpl; auto | intros line1 _].
  apply conforms_bind with (Q' := fun _ => True);
    [apply conforms_input; simpl; auto | intros line2 _].
  apply conforms_bind with (Q' := fun _ => True);
    [apply conforms_print; [simpl; discriminate | exact I] | intros ? _].
  apply conforms_bind with (Q' := fun _ => True);
    [apply conforms_input; simpl; auto | intros line3 _].
  apply conforms_bind with (Q' := fun timeframe => In timeframe valid_timeframes).
  { cbv zeta.
    destruct (in_list (or_else (lower (strip line3)) "1d") valid_timeframes) eqn:Hvalid;
      simpl.
    - apply conforms_ret.
      exact (proj1 (in_list_spec _ valid_timeframes) Hvalid).
    - apply conforms_bind with (Q' := fun _ => True);
        [apply conforms_print; [simpl; discriminate | exact I] | intros ? _].
      apply conforms_ret. simpl. tauto. }
  intros timeframe Htimeframe.
  apply conforms_bind
    with (Q' := fun period =>
                  in_list timeframe daily_or_coarser = true -> In period valid_periods).
  { fold daily_or_coarser.
    destruct (in_list timeframe daily_or_coarser).
    - apply conforms_bind with (Q' := fun _ => True);
        [apply conforms_print; [simpl; discriminate | exact I] | intros ? _].
      apply conforms_bind with (Q' := fun _ => True);
        [apply conforms_input; simpl; auto | intros line4 _].
      cbv zeta.
      destruct (in_list (or_else (lower (strip line4)) "1y") valid_periods) eqn:Hvalid;
        simpl.
      + apply conforms_ret. intros _.
        exact (proj1 (in_list_spec _ valid_periods) Hvalid).
      + apply conforms_bind with (Q' := fun _ => True);
          [apply conforms_print; [simpl; discriminate | exact I] | intros ? _].
        apply conforms_ret. intros _. simpl. tauto.
    - apply conforms_ret. discriminate. }
  intros period Hperiod.
  apply conforms_bind with (Q' := fun _ => True);
    [apply conforms_print; [simpl; discriminate | exact I] | intros ? _].
  apply conforms_bind with (Q' := fun _ => True);
    [apply conforms_print; [simpl; discriminate | exact I] | intros ? _].
  eapply conforms_weaken;
    [ eapply conforms_events_weaken;
      [| apply continuous_monitor_footprint ];
      intros ev; apply monitor_event_script_event; assumption
    | auto
    | intros e ->; left; reflexivity ].
Qed.

End MainFootprint.

(** ** What the script may do *)

Section ScriptFootprint.

Variable E : Env.

Lemma conforms_import_installed P (Q : unit -> Prop) R name :
  installed E name = true ->
  P (EvImport name) -> Q tt -> conforms P Q R (import E name).
Proof.
  intros Hinstalled Hev Hq s. unfold import. rewrite Hinstalled.
  exists [EvImport name]. split; [reflexivity |].
  split; [repeat constructor; exact Hev | exact Hq].
Qed.

Lemma missing_module_is_script_exn name :
  script_exn (Exc ImportError ("No module named '" +:+ name +:+ "'")).
Proof. right. right. exists name. reflexivity. Qed.

Lemma script_footprint fuel :
  conforms script_event (fun _ => True) script_exn (script E fuel).
Proof.
  destruct (installed E "yfinance") eqn:Hyfinance.
  - unfold script.
    repeat (apply conforms_bind with (Q' := fun _ => True);
            [apply conforms_import;
             [exact I | apply missing_module_is_script_exn | exact I]
            | intros ? _]).
    apply conforms_try
      with (R' := fun e => e = KeyboardInterrupt \/
                           e = Exc EOFError "EOF when reading a line").
    + apply conforms_bind with (Q' := fun _ => True);
        [apply conforms_import_installed; [exact Hyfinance | exact I | exact I]
        | intros ? _].
      apply main_footprint.
    + intros e [-> | ->]; simpl; [left | right; left]; reflexivity.
  - intros s. unfold script, mbind, M_bind, import. rewrite Hyfinance.
    exists [EvImport "yfinance"]. split; [reflexivity |].
    split; [repeat constructor |].
    apply missing_module_is_script_exn.
Qed.

Lemma run_footprint fuel :
  Forall script_event (trace (snd (run E fuel))) /\
  match fst (run E fuel) with
  | Raise e => script_exn e
  | _ => True
  end.
Proof.
  destruct (script_footprint fuel initial_state) as (evs & Htrace & Hevs & Hres).
  unfold run. rewrite Htrace. split; [exact Hevs |].
  destruct (fst (script E fuel initial_state)); auto.
Qed.


(** X3: the install guidance of line 134 is never printed, in no world:
    the clause that prints it is never entered. *)
Theorem install_guidance_is_never_printed fuel :
  Forall (fun text => text <> "Error: Please install yfinance first")
         (stdout (trace (snd (run E fuel)))).
Proof.
  destruct (run_footprint fuel) as [Hevs _].
  apply Forall_forall. intros text Htext.
  apply list_elem_of_omap in Htext. destruct Htext as (ev & Hev & Hprint).
  rewrite Forall_forall in Hevs. specialize (Hevs ev Hev).
  destruct ev; try discriminate.
  injection Hprint as ->. exact Hevs.
Qed.

(** X4: the only exceptions that leave the script are a failed import at
    the top of the module, the end of input at a prompt and
    [KeyboardInterrupt]; no failure of the provider ends the process. *)
Theorem script_ends_only_on_import_input_or_interrupt fuel e :
  fst (run E fuel) = Raise e -> script_exn e.
Proof.
  intros Hraise. destruct (run_footprint fuel) as [_ Hres].
  rewrite Hraise in Hres. exact Hres.
Qed.

End ScriptFootprint.


Lemma script_ends_only_on_import_input_or_interrupt_witness :
  script_exn (Exc ImportError "No module named 'yfinance'").
Proof.
  apply (script_ends_only_on_import_input_or_interrupt bare_world 1).
  reflexivity.
Defined.

(** ** The period of an intraday timeframe *)

Section PeriodIrrelevant.

Variable E : Env.
Variables symbol1 symbol2 timeframe : string.
Hypothesis Hintraday : in_list timeframe daily_or_coarser = false.

Lemma selected_period_intraday period period' :
  selected_period timeframe period = selected_period timeframe period'.
Proof. rewrite !selected_period_cases, Hintraday. reflexivity. Qed.

Lemma loop_body_intraday period period' :
  loop_body E symbol1 symbol2 timeframe period =
  loop_body E symbol1 symbol2 timeframe period'.
Proof.
  unfold loop_body, report_and_sleep, report_attempt, print_report,
    calculate_correlation, get_stock_data.
  fold daily_or_coarser. rewrite Hintraday.
  rewrite (selected_period_intraday period period'). reflexivity.
Qed.

Lemma monitor_loop_intraday fuel period period' :
  monitor_loop E fuel symbol1 symbol2 timeframe period =
  monitor_loop E fuel symbol1 symbol2 timeframe period'.
Proof.
  induction fuel as [| fuel IH]; simpl; [reflexivity |].
  rewrite (loop_body_intraday period period'), IH. reflexivity.
Qed.

(** X5: for a timeframe other than 1d, 1wk and 1mo the period argument
    changes nothing: [continuous_monitor] sends the same requests, prints
    the same lines and ends the same way for any two periods. *)
Theorem period_is_ignored_for_intraday fuel period period' s :
  continuous_monitor E fuel symbol1 symbol2 timeframe period s =
  continuous_monitor E fuel symbol1 symbol2 timeframe period' s.
Proof.
  unfold continuous_monitor.
  rewrite (monitor_loop_intraday fuel period period'). reflexivity.
Qed.

End PeriodIrrelevant.

Lemma period_is_ignored_for_intraday_witness :
  continuous_monitor steady_world 2 "AAPL" "MSFT" "5m" "1y" initial_state =
  continuous_monitor steady_world 2 "AAPL" "MSFT" "5m" "10y" initial_state.
Proof.
  apply (period_is_ignored_for_intraday steady_world "AAPL" "MSFT" "5m").
  reflexivity.
Defined.

(** ** The join of two series *)








(** ** The events of the correlation engine *)

Section EngineEvents.

Variable E : Env.
Variables symbol1 symbol2 timeframe period : string.

Abbreviation window := (selected_period timeframe period).

(** X7: [calculate_correlation] asks the provider for the first
    instrument, and for the second only when the first fetch has returned;
    it performs no other event (it prints nothing and never sleeps) and
    leaves [last_update] and [last_data_count] alone. *)
Theorem calculate_correlation_events s :
  let s' := snd (calculate_correlation E symbol1 symbol2 timeframe period s) in
  trace s' =
    trace s ++
    EvHistory symbol1 window timeframe ::
    match first_fetch E symbol1 timeframe period s with
    | Ret _ => [EvHistory symbol2 window timeframe]
    | _ => []
    end /\
  last_update s' = last_update s /\
  last_data_count s' = last_data_count s.
Proof.
  unfold first_fetch, calculate_correlation, try_except, mbind, M_bind.
  rewrite get_stock_data_spec. cbn [fst snd].
  destruct (sigint E (tick s)); [repeat split |].
  destruct (history E (tick s) symbol1 _ timeframe) as [data1 | cls1 msg1];
    [| repeat split].
  destruct (data1 !! "Close") as [a |]; [| repeat split].
  rewrite get_stock_data_spec.
  assert (Hlog : forall r : outcome Series * State,
             snd r = log (EvHistory symbol2 window timeframe)
                         (log (EvHistory symbol1 window timeframe) s) ->
             trace (snd r) = trace s ++
               [EvHistory symbol1 window timeframe;
                EvHistory symbol2 window timeframe] /\
             last_update (snd r) = last_update s /\
             last_data_count (snd r) = last_data_count s).
  { intros r ->. simpl. rewrite <- app_assoc. repeat split. }
  destruct (sigint E _); [apply (Hlog (Raise KeyboardInterrupt, _)); reflexivity |].
  destruct (history E _ symbol2 _ timeframe) as [data2 | cls2 msg2];
    [| apply (Hlog (Raise (Exc cls2 msg2), _)); reflexivity].
  destruct (data2 !! "Close") as [b |];
    [| apply (Hlog (Raise (Exc KeyError "'Close'"), _)); reflexivity].
  unfold getitem, corr, raise. simpl.
  destruct (String.eqb symbol1 symbol1), (String.eqb symbol1 symbol2),
    (String.eqb symbol2 symbol1), (String.eqb symbol2 symbol2);
    simpl; rewrite <- app_assoc; repeat split.
Qed.

End EngineEvents.

(** ** How an iteration ends *)

Lemma last_log ev s : last (trace (log ev s)) = Some ev.
Proof. unfold log. simpl. apply last_snoc. Qed.

Section Iterations.

Variable E : Env.
Variables symbol1 symbol2 timeframe period : string.

Abbreviation window := (selected_period timeframe period).
Abbreviation body := (loop_body E symbol1 symbol2 timeframe period).

Lemma sleep_step_outcomes s :
  let r := try_except (time_sleep E 5;; mret true) (monitor_handlers E) s in
  match fst r with
  | Ret true => last (trace (snd r)) = Some (EvSleep 5)
  | Ret false => last (trace (snd r)) = Some stop_line
  | _ => False
  end.
Proof.
  cbv zeta. rewrite sleep_step.
  destruct (sigint E (tick s)); simpl fst; cbn [snd]; apply last_log.
Qed.

Ltac by_sleep_step :=
  match goal with
  | |- context [try_except ?m ?h ?s0] =>
      let Hs := fresh "Hs" in
      pose proof (sleep_step_outcomes s0) as Hs; cbv zeta in Hs;
      destruct (try_except m h s0) as [[[|] | ? |] ?];
      simpl in Hs |- *; first [exact Hs | contradiction]
  end.

(** An iteration goes on after its sleep, breaks after the stop notice, or
    raises [KeyboardInterrupt] out of the sleep of line 94. *)
Lemma loop_body_outcomes s :
  match fst (body s) with
  | Ret true => last (trace (snd (body s))) = Some (EvSleep 5)
  | Ret false => last (trace (snd (body s))) = Some stop_line
  | Raise e => e = KeyboardInterrupt /\ last (trace (snd (body s))) = Some (EvSleep 5)
  | Spin => False
  end.
Proof.
  destruct (first_fetch E symbol1 timeframe period s) as [series | e |] eqn:Hfetch.
  - rewrite (loop_body_fetched E _ symbol2 _ _ s series Hfetch).
    destruct (should_report (last_update s) (last_data_count s)
                (clock E (S (tick s))) (length series)) eqn:Hgate.
    + rewrite gate_open by exact Hgate.
      destruct (report_attempt_shape E symbol1 symbol2 timeframe period
                  (clock E (S (tick s))) (length series)
                  (log EvNow (log (EvHistory symbol1 window timeframe) s)))
        as [evs [(f & _ & lines & ->) | [(text & _ & ->) | ->]]].
      * by_sleep_step.
      * by_sleep_step.
      * rewrite interrupt_step. apply last_log.
    + rewrite gate_closed by exact Hgate. by_sleep_step.
  - rewrite (loop_body_not_fetched E _ symbol2 _ _ s e Hfetch).
    destruct e as [| cls msg].
    + rewrite interrupt_step. apply last_log.
    + rewrite failure_step. cbv zeta. cbn [fst snd].
      destruct (sigint E (S (S (tick _)))).
      * split; [reflexivity | apply last_log].
      * apply last_log.
  - exfalso. exact (get_stock_data_never_spins E _ _ _ s Hfetch).
Qed.

Lemma monitor_loop_outcomes fuel : forall s,
  let r := monitor_loop E fuel symbol1 symbol2 timeframe period s in
  match fst r with
  | Ret _ => last (trace (snd r)) = Some stop_line
  | Raise e => e = KeyboardInterrupt /\ last (trace (snd r)) = Some (EvSleep 5)
  | Spin => True
  end.
Proof.
  induction fuel as [| fuel IH]; intros s; simpl; [exact I |].
  unfold mbind, M_bind.
  pose proof (loop_body_outcomes s) as Hbody. fold body.
  destruct (body s) as [[[|] | e |] s1]; simpl in Hbody |- *.
  - apply IH.
  - exact Hbody.
  - exact Hbody.
  - contradiction.
Qed.

(** X8: [continuous_monitor] returns only after the stop notice, which is
    then the last thing it has done; the only exception that leaves it is
    [KeyboardInterrupt], and then out of a five-second sleep. *)
Theorem monitor_returns_after_stop_notice fuel s :
  let r := continuous_monitor E fuel symbol1 symbol2 timeframe period s in
  match fst r with
  | Ret _ => last (trace (snd r)) = Some stop_line
  | Raise e => e = KeyboardInterrupt /\ last (trace (snd r)) = Some (EvSleep 5)
  | Spin => True
  end.
Proof.
  rewrite continuous_monitor_start. apply monitor_loop_outcomes.
Qed.

(** Without Ctrl-C an iteration always goes on. *)
Lemma loop_body_goes_on s :
  (forall n, sigint E n = false) -> fst (body s) = Ret true.
Proof.
  intros Hquiet.
  assert (Hsleep : forall s0,
             fst (try_except (time_sleep E 5;; mret true) (monitor_handlers E) s0)
             = Ret true).
  { intros s0. rewrite sleep_step, Hquiet. reflexivity. }
  destruct (first_fetch E symbol1 timeframe period s) as [series | e |] eqn:Hfetch.
  - rewrite (loop_body_fetched E _ symbol2 _ _ s series Hfetch).
    destruct (should_report (last_update s) (last_data_count s)
                (clock E (S (tick s))) (length series)) eqn:Hgate.
    + rewrite gate_open by exact Hgate.
      set (s1 := log EvNow (log (EvHistory symbol1 window timeframe) s)).
      destruct (calculate_correlation_quiet E symbol1 symbol2 timeframe period s1
                  (Hquiet _) (Hquiet _)) as [v Hv].
      destruct (calculate_correlation E symbol1 symbol2 timeframe period s1)
        as [r sc] eqn:Hcalc.
      simpl in Hv. subst r. destruct v as [f | text].
      * rewrite (report_attempt_float E _ _ _ _ _ _ s1 sc f Hcalc). apply Hsleep.
      * rewrite (report_attempt_text E _ _ _ _ _ _ s1 sc text Hcalc). apply Hsleep.
    + rewrite gate_closed by exact Hgate. apply Hsleep.
  - rewrite (loop_body_not_fetched E _ symbol2 _ _ s e Hfetch).
    destruct e as [| cls msg].
    + unfold first_fetch in Hfetch. rewrite get_stock_data_spec, Hquiet in Hfetch.
      simpl in Hfetch. repeat case_match; discriminate.
    + rewrite failure_step, Hquiet. reflexivity.
  - exfalso. exact (get_stock_data_never_spins E _ _ _ s Hfetch).
Qed.

(** X9: when the operator never presses Ctrl-C the monitor never stops,
    whatever the provider does: after any number of iterations it is still
    running. *)
Theorem monitor_survives_every_failure fuel s :
  (forall n, sigint E n = false) ->
  fst (continuous_monitor E fuel symbol1 symbol2 timeframe period s) = Spin.
Proof.
  intros Hquiet. rewrite continuous_monitor_start.
  generalize (monitor_start s). clear s.
  induction fuel as [| fuel IH]; intros s; simpl; [reflexivity |].
  unfold mbind, M_bind. pose proof (loop_body_goes_on s Hquiet) as Hbody.
  fold body. destruct (body s) as [r s1]. simpl in Hbody. subst r. apply IH.
Qed.

(** X10: a failed freshness fetch is answered by the line
    [Unexpected error at HH:MM:SS: ] with the description of the failure
    and a five-second sleep; the provider is not asked again in that
    iteration, the two variables keep their values, and the loop goes
    on. *)
Theorem failed_fetch_is_logged_and_retried cls msg s :
  first_fetch E symbol1 timeframe period s = Raise (Exc cls msg) ->
  sigint E (tick s + 3) = false ->
  body s =
  (Ret true,
   {| trace := trace s ++
        [EvHistory symbol1 window timeframe;
         EvNow;
         EvPrint (nl +:+ "Unexpected error at "
                  +:+ strftime_HMS (clock E (S (tick s))) +:+ ": " +:+ msg);
         EvSleep 5];
      last_update := last_update s;
      last_data_count := last_data_count s |}).
Proof.
  intros Hfetch Hquiet.
  rewrite (loop_body_not_fetched E _ symbol2 _ _ s _ Hfetch).
  rewrite failure_step, !tick_log.
  replace (S (S (S (tick s)))) with (tick s + 3)%nat by lia.
  rewrite Hquiet. unfold log. simpl. rewrite <- !app_assoc. reflexivity.
Qed.

End Iterations.

Lemma monitor_survives_every_failure_witness :
  fst (continuous_monitor dead_provider_world 7 "AAPL" "MSFT" "1d" "1y" initial_state)
  = Spin.
Proof.
  apply (monitor_survives_every_failure dead_provider_world "AAPL" "MSFT" "1d" "1y").
  reflexivity.
Defined.

Lemma failed_fetch_is_logged_and_retried_witness :
  fst (loop_body dead_provider_world "AAPL" "MSFT" "1d" "1y" initial_state) = Ret true.
Proof.
  rewrite (failed_fetch_is_logged_and_retried dead_provider_world
             "AAPL" "MSFT" "1d" "1y" OtherError "network down" initial_state);
    reflexivity.
Defined.

(** ** Reports along a run *)

Section Reports.

Variable E : Env.
Variables symbol1 symbol2 timeframe period : string.

Abbreviation body := (loop_body E symbol1 symbol2 timeframe period).

(** One iteration keeps the last report or replaces it by a later one with
    more rows. *)
Lemma report_advances_step s T0 N0 :
  last_update s = Some T0 ->
  last_data_count s = Some N0 ->
  exists T1 N1,
    last_update (snd (body s)) = Some T1 /\
    last_data_count (snd (body s)) = Some N1 /\
    ((T1 = T0 /\ N1 = N0) \/ (T0 + 60 * 1000000 <= T1 /\ (N0 < N1)%nat)).
Proof.
  intros HT0 HN0.
  destruct (loop_body_updates E symbol1 symbol2 timeframe period s)
    as [[Hlu Hlc] | (series & f & sc & _ & Hgate & _ & Hlu & Hlc)].
  - exists T0, N0. fold body in Hlu, Hlc. rewrite Hlu, Hlc. auto.
  - fold body in Hlu, Hlc. eexists _, _.
    split; [exact Hlu |]. split; [exact Hlc |]. right.
    apply should_report_spec in Hgate. rewrite HT0, HN0 in Hgate.
    destruct Hgate as [[Hnone | (T & [= <-] & Htime)] [Hnone' | (N & [= <-] & Hcount)]];
      try discriminate.
    split; assumption.
Qed.

(** X11: once a report has been made, every later boundary of the loop
    still holds a report, either the same one or one made at least 60
    seconds later on strictly more rows: the variables are never unset, and
    the reported count never decreases. *)
Theorem reports_only_advance k : forall s s' T0 N0,
  last_update s = Some T0 ->
  last_data_count s = Some N0 ->
  boundary E symbol1 symbol2 timeframe period k s = Some s' ->
  exists T1 N1,
    last_update s' = Some T1 /\
    last_data_count s' = Some N1 /\
    ((T1 = T0 /\ N1 = N0) \/ (T0 + 60 * 1000000 <= T1 /\ (N0 < N1)%nat)).
Proof.
  induction k as [| k IH]; intros s s' T0 N0 HT0 HN0 Hreach; simpl in Hreach.
  - injection Hreach as <-. exists T0, N0. auto.
  - destruct (report_advances_step s T0 N0 HT0 HN0)
      as (T1 & N1 & HT1 & HN1 & Hstep).
    fold body in Hreach.
    destruct (body s) as [[[|] | e |] s1]; try discriminate.
    simpl in HT1, HN1.
    destruct (IH s1 s' T1 N1 HT1 HN1 Hreach) as (T2 & N2 & HT2 & HN2 & Hrest).
    exists T2, N2. split; [exact HT2 |]. split; [exact HN2 |].
    destruct Hstep as [[-> ->] | [Htime Hcount]]; [exact Hrest |].
    right. destruct Hrest as [[-> ->] | [Htime' Hcount']]; split; lia.
Qed.

Lemma should_report_monotone lu lc now n now' n' :
  should_report lu lc now n = true ->
  now <= now' -> (n <= n')%nat ->
  should_report lu lc now' n' = true.
Proof.
  rewrite !should_report_spec.
  intros [Htime Hcount] Hnow Hn. split.
  - destruct Htime as [-> | (T0 & -> & Htime)]; [left; reflexivity | right].
    exists T0. split; [reflexivity | lia].
  - destruct Hcount as [-> | (N0 & -> & Hcount)]; [left; reflexivity | right].
    exists N0. split; [reflexivity | lia].
Qed.

(** X12: an attempt that ends in an error text is made again at the next
    poll: the state is as before, so when the clock has not gone back and
    the first instrument has not lost rows, the next iteration whose fetch
    returns attempts the report again, five seconds later. *)
Theorem error_is_retried_at_next_poll s series text sc series' :
  let now := clock E (S (tick s)) in
  let s1 := log EvNow (log (EvHistory symbol1 (selected_period timeframe period)
                                      timeframe) s) in
  let s' := snd (body s) in
  first_fetch E symbol1 timeframe period s = Ret series ->
  should_report (last_update s) (last_data_count s) now (length series) = true ->
  calculate_correlation E symbol1 symbol2 timeframe period s1 = (Ret (PyStr text), sc) ->
  sigint E (S (tick sc)) = false ->
  first_fetch E symbol1 timeframe period s' = Ret series' ->
  now <= clock E (S (tick s')) ->
  (length series <= length series')%nat ->
  fst (body s) = Ret true /\
  report_attempted s' (snd (body s')) = true.
Proof.
  intros now s1 s' Hfetch Hgate Hcalc Hquiet Hfetch' Hclock Hrows.
  assert (Hbody : body s =
                  (Ret true,
                   log (EvSleep 5)
                       (log (EvPrint (nl +:+ "Error at " +:+ strftime_HMS now
                                      +:+ ": " +:+ text)) sc))).
  { rewrite (loop_body_fetched E _ symbol2 _ _ s series Hfetch).
    rewrite gate_open by exact Hgate.
    fold s1 now.
    rewrite (report_attempt_text E _ _ _ _ now (length series) s1 sc text Hcalc).
    rewrite sleep_step, tick_log, Hquiet. reflexivity. }
  split; [rewrite Hbody; reflexivity |].
  apply (loop_body_gate_open E symbol1 symbol2 timeframe period s' series' Hfetch').
  assert (Hkept : last_update s' = last_update s /\
                  last_data_count s' = last_data_count s).
  { subst s'. rewrite Hbody.
    destruct (only_logs_calculate_correlation E symbol1 symbol2 timeframe period s1)
      as [evs Hsc].
    rewrite Hcalc in Hsc. simpl in Hsc. subst sc. split; reflexivity. }
  destruct Hkept as [-> ->].
  exact (should_report_monotone _ _ _ _ _ _ Hgate Hclock Hrows).
Qed.

End Reports.

Lemma reports_only_advance_witness :
  exists s',
    boundary steady_world "AAPL" "MSFT" "1d" "1y" 2 stale_state = Some s' /\
    last_update s' = Some 1000000 /\
    last_data_count s' = Some 3%nat.
Proof.
  eexists. split; [vm_compute; reflexivity |].
  destruct (reports_only_advance steady_world "AAPL" "MSFT" "1d" "1y" 2
              stale_state _ (-60000000) 2%nat eq_refl eq_refl
              ltac:(vm_compute; reflexivity))
    as (T1 & N1 & HT1 & HN1 & _).
  split; reflexivity.
Defined.

Lemma error_is_retried_at_next_poll_witness :
  let s' := snd (loop_body steady_world "AAPL" "AAPL" "1d" "1y" initial_state) in
  report_attempted s' (snd (loop_body steady_world "AAPL" "AAPL" "1d" "1y" s')) = true.
Proof.
  refine (proj2 (error_is_retried_at_next_poll steady_world "AAPL" "AAPL" "1d" "1y"
                   initial_state (prices [(1, 1); (2, 2); (3, 3)])
                   "Error: DataFrame.corr() got multiple values for argument 'method'"
                   (fetched_twice "AAPL" "AAPL" "1d" "1y"
                      (log EvNow (log (EvHistory "AAPL" "1y" "1d") initial_state)))
                   (prices [(1, 1); (2, 2); (3, 3)])
                   eq_refl eq_refl eq_refl eq_refl eq_refl _ _)).
  - vm_compute. discriminate.
  - vm_compute. lia.
Defined.

(** ** How the script ends *)

Lemma bind_returns {A B} (m : M A) (k : A -> M B) s b s' :
  (m ≫= k) s = (Ret b, s') ->
  exists a s1, m s = (Ret a, s1) /\ k a s1 = (Ret b, s').
Proof.
  unfold mbind, M_bind. destruct (m s) as [[a | e |] s1]; try discriminate.
  intros Hk. exists a, s1. split; [reflexivity | exact Hk].
Qed.

Section ScriptEnd.

Variable E : Env.

Abbreviation stops_last m :=
  (forall s r s', m s = (Ret r, s') -> last (trace s') = Some stop_line).

Lemma stops_last_bind {A B} (m : M A) (k : A -> M B) :
  (forall a, stops_last (k a)) -> stops_last (m ≫= k).
Proof.
  intros Hk s r s' Hrun. apply bind_returns in Hrun.
  destruct Hrun as (a & s1 & _ & Hrest). exact (Hk a s1 r s' Hrest).
Qed.

Lemma stops_last_monitor_loop fuel symbol1 symbol2 timeframe period :
  stops_last (monitor_loop E fuel symbol1 symbol2 timeframe period).
Proof.
  intros s r s' Hrun.
  pose proof (monitor_loop_outcomes E symbol1 symbol2 timeframe period fuel s)
    as Hend.
  cbv zeta in Hend. rewrite Hrun in Hend. exact Hend.
Qed.

Lemma stops_last_main fuel : stops_last (main E fuel).
Proof.
  unfold main, continuous_monitor.
  repeat (apply stops_last_bind; intros ?).
  apply stops_last_monitor_loop.
Qed.

(** X13: the script runs to its end, and so ends with success, only after
    the stop notice, which is then the last thing it has done: a caught
    Ctrl-C is the only way to a normal end. *)
Theorem script_ends_normally_only_after_stop_notice fuel :
  exits_with_success (fst (run E fuel)) = true ->
  last (trace (snd (run E fuel))) = Some stop_line.
Proof.
  unfold run. destruct (script E fuel initial_state) as [[[] | e |] s'] eqn:Hrun;
    try discriminate.
  intros _. cbn [snd]. unfold script in Hrun.
  apply bind_returns in Hrun. destruct Hrun as (u1 & s1 & Hline1 & Hrun).
  assert (Hyfinance : installed E "yfinance" = true).
  { unfold import in Hline1. destruct (installed E "yfinance");
      [reflexivity | discriminate]. }
  do 5 (apply bind_returns in Hrun; destruct Hrun as (? & ? & _ & Hrun)).
  assert (Hguarded :
    conforms script_event (fun _ : unit => True)
      (fun e => e = KeyboardInterrupt \/ e = Exc EOFError "EOF when reading a line")
      (import E "yfinance";; main E fuel)).
  { apply conforms_bind with (Q' := fun _ => True);
      [apply conforms_import_installed; [exact Hyfinance | exact I | exact I]
      | intros ? _; apply main_footprint]. }
  unfold try_except in Hrun.
  match type of Hrun with
  | context [(import E "yfinance";; main E fuel) ?s0] =>
      destruct (Hguarded s0) as (_ & _ & _ & Hres);
      destruct ((import E "yfinance";; main E fuel) s0)
        as [[u | e |] s7] eqn:Hbody
  end.
  - destruct u. injection Hrun as <-. apply bind_returns in Hbody.
    destruct Hbody as (? & ? & _ & Hmain).
    exact (stops_last_main fuel _ _ _ Hmain).
  - simpl in Hres. destruct Hres as [-> | ->]; discriminate.
  - discriminate.
Qed.

End ScriptEnd.

Lemma script_ends_normally_only_after_stop_notice_witness :
  last (trace (snd (run patient_world 1))) = Some stop_line.
Proof.
  apply (script_ends_normally_only_after_stop_notice patient_world 1).
  reflexivity.
Defined.

(** ** After a report *)

Section AfterReport.

Variable E : Env.
Variables symbol1 symbol2 timeframe period : string.

Abbreviation window := (selected_period timeframe period).
Abbreviation body := (loop_body E symbol1 symbol2 timeframe period).

(** X14: after an iteration that has printed a report, the next poll whose
    clock is less than 60 seconds later, or whose fetch has no more rows,
    does nothing but fetch, read the clock and sleep: it asks the provider
    once, prints no report and keeps the recorded report. *)
Theorem no_second_report_within_a_minute s series f sc series' :
  let now := clock E (S (tick s)) in
  let s1 := log EvNow (log (EvHistory symbol1 window timeframe) s) in
  let s' := snd (body s) in
  first_fetch E symbol1 timeframe period s = Ret series ->
  should_report (last_update s) (last_data_count s) now (length series) = true ->
  calculate_correlation E symbol1 symbol2 timeframe period s1 = (Ret (PyFloat f), sc) ->
  sigint E (tick sc + 4) = false ->
  first_fetch E symbol1 timeframe period s' = Ret series' ->
  clock E (S (tick s')) < now + 60 * 1000000 \/
    (length series' <= length series)%nat ->
  fst (body s) = Ret true /\
  body s' =
    (Ret (negb (sigint E (S (S (tick s'))))),
     {| trace := trace s' ++
          [EvHistory symbol1 window timeframe; EvNow; EvSleep 5] ++
          (if sigint E (S (S (tick s'))) then [stop_line] else []);
        last_update := Some now;
        last_data_count := Some (length series) |}).
Proof.
  intros now s1 s' Hfetch Hgate Hcalc Hquiet Hfetch' Hearly.
  assert (Hbody : fst (body s) = Ret true /\
                  last_update s' = Some now /\
                  last_data_count s' = Some (length series)).
  { subst s'. rewrite (loop_body_fetched E _ symbol2 _ _ s series Hfetch).
    rewrite gate_open by exact Hgate.
    fold s1 now.
    rewrite (report_attempt_float E _ _ _ _ now (length series) s1 sc f Hcalc).
    rewrite sleep_step.
    unfold tick at 1 2 3. cbn [trace]. rewrite length_app. cbn [length].
    fold (tick sc). rewrite Hquiet. repeat split. }
  destruct Hbody as (Hgoes & Hlu & Hlc). split; [exact Hgoes |].
  rewrite <- Hlu, <- Hlc.
  apply (loop_body_gate_closed E symbol1 symbol2 timeframe period s' series' Hfetch').
  rewrite Hlu, Hlc. unfold should_report. apply andb_false_iff.
  destruct Hearly as [Htime | Hrows].
  - left. apply Z.leb_gt. lia.
  - right. apply Nat.ltb_ge. exact Hrows.
Qed.

End AfterReport.

Lemma no_second_report_within_a_minute_witness :
  let s' := snd (loop_body steady_world "AAPL" "MSFT" "1d" "1y" initial_state) in
  stdout (trace (snd (loop_body steady_world "AAPL" "MSFT" "1d" "1y" s'))) =
  stdout (trace s').
Proof.
  cbv zeta.
  rewrite (proj2 (no_second_report_within_a_minute steady_world
                    "AAPL" "MSFT" "1d" "1y" initial_state
                    (prices [(1, 1); (2, 2); (3, 3)])
                    (S754_finite false 8947745144577444 (-53))
                    (fetched_twice "AAPL" "MSFT" "1d" "1y"
                       (log EvNow (log (EvHistory "AAPL" "1y" "1d") initial_state)))
                    (prices [(1, 1); (2, 2); (3, 3)])
                    eq_refl eq_refl eq_refl eq_refl eq_refl
                    ltac:(left; vm_compute; reflexivity))).
  vm_compute. reflexivity.
Defined.

Lemma coefficient_is_nan_or_in_range_witness :
  SFleb (of_Z (-1)) (S754_finite false 8947745144577444 (-53)) = true /\
  SFleb (S754_finite false 8947745144577444 (-53)) (of_Z 1) = true.
Proof.
  destruct (coefficient_is_nan_or_in_range steady_world "AAPL" "MSFT" "1d" "1y"
              initial_state (S754_finite false 8947745144577444 (-53)) eq_refl)
    as [Hnan | Hrange].
  - discriminate Hnan.
  - exact Hrange.
Defined.

Lemma calculate_correlation_same_witness :
  fst (calculate_correlation steady_world "MSFT" "MSFT" "1d" "1y" initial_state) =
  Ret (PyStr "Error: DataFrame.corr() got multiple values for argument 'method'").
Proof.
  rewrite (calculate_correlation_same steady_world "MSFT" "1d" "1y" initial_state
             (prices [(1, 2); (2, 4); (3, 7)]) (prices [(1, 2); (2, 4); (3, 7)])
             eq_refl eq_refl).
  reflexivity.
Defined.

Lemma interrupt_in_fetch_stops_witness :
  fst (monitor_loop interrupted_world 1 "AAPL" "MSFT" "1d" "1y" initial_state) = Ret tt.
Proof.
  rewrite (interrupt_in_fetch_stops interrupted_world "AAPL" "MSFT" "1d" "1y" 0
             initial_state eq_refl).
  reflexivity.
Defined.
